(** * oslo_middleware.healthcheck: the Healthcheck middleware

    A shallow embedding of [oslo_middleware/healthcheck/__init__.py] and of
    the library calls it makes (str.strip, jinja2 templates, json.dumps,
    markupsafe escaping), followed by the properties of the request handler
    [process_request].

    Text is modelled by [string]; a character is read as the code point of
    the same number (0 to 255). *)

From Stdlib Require Import String Ascii List Bool Arith Lia Permutation.
From Stdlib Require Import DecimalString.
Import ListNotations.
Open Scope list_scope.
Open Scope string_scope.
Set Warnings "-register-all".

(** ** Exceptions and outcomes of a call *)

(** A raised Python exception: the name of its type and its message. *)
Record Exn : Type := mkExn { exc_type : string; exc_msg : string }.

(** What a call does: it returns a value or raises. *)
Inductive Outcome (A : Type) : Type :=
| Returned (a : A)
| Raised (e : Exn).
Arguments Returned {A} a.
Arguments Raised {A} e.

Definition obind {A B : Type} (o : Outcome A) (k : A -> Outcome B) : Outcome B :=
  match o with
  | Returned a => k a
  | Raised e => Raised e
  end.

(** ** Python values and string primitives *)

Module Py.

(** The Python values that flow into the templates and into json.dumps. *)
Inductive Value : Type :=
| VNone
| VBool (b : bool)
| VInt (n : nat)
| VStr (s : string)
| VList (l : list Value)
| VDict (d : list (string * Value)).

(** A dict is kept as its items in insertion order, keys unique. *)
Definition Dict : Type := list (string * Value).

Fixpoint dict_get (d : Dict) (k : string) : option Value :=
  match d with
  | [] => None
  | (k', v) :: d' => if String.eqb k' k then Some v else dict_get d' k
  end.

(** [d[k] = v]: the value of an existing key is replaced in place, a new
    key goes last. *)
Fixpoint dict_set (d : Dict) (k : string) (v : Value) : Dict :=
  match d with
  | [] => [(k, v)]
  | (k', v') :: d' =>
      if String.eqb k' k then (k', v) :: d' else (k', v') :: dict_set d' k v
  end.

Definition LF : string := String (ascii_of_nat 10) "".
Definition DQ : string := String (ascii_of_nat 34) "".

(** Whitespace as [str.strip()] with no argument sees it, among the code
    points below 256: TAB to CR, FS to US, space, NEL and NBSP. *)
Definition is_space (c : ascii) : bool :=
  let n := nat_of_ascii c in
  (Nat.leb 9 n && Nat.leb n 13) || (Nat.leb 28 n && Nat.leb n 32)
  || Nat.eqb n 133 || Nat.eqb n 160.

Fixpoint lstrip (s : string) : string :=
  match s with
  | "" => ""
  | String c s' => if is_space c then lstrip s' else s
  end.

Fixpoint rstrip (s : string) : string :=
  match s with
  | "" => ""
  | String c s' =>
      match rstrip s' with
      | "" => if is_space c then "" else String c ""
      | r => String c r
      end
  end.

(** [s.strip()] *)
Definition strip (s : string) : string := rstrip (lstrip s).

(** [sep.join(l)] *)
Definition join (sep : string) (l : list string) : string := String.concat sep l.

(** The strings of [l] one after the other. *)
Fixpoint cat (l : list string) : string :=
  match l with
  | [] => ""
  | x :: l' => x ++ cat l'
  end.

(** [s.startswith(pat)] *)
Fixpoint startswith (s pat : string) : bool :=
  match pat, s with
  | "", _ => true
  | String a pat', String b s' => Ascii.eqb a b && startswith s' pat'
  | String _ _, "" => false
  end.

(** The number of places of [s] where [pat] starts. *)
Fixpoint count_sub (pat s : string) : nat :=
  match s with
  | "" => 0
  | String _ s' => (if startswith s pat then 1 else 0) + count_sub pat s'
  end.

(** [str(n)] for a natural number: its decimal digits. *)
Definition str_of_nat (n : nat) : string := NilEmpty.string_of_uint (Nat.to_uint n).

(** Truth value of an object, as [if x] and [not x] take it. *)
Definition truthy (v : Value) : bool :=
  match v with
  | VNone => false
  | VBool b => b
  | VInt n => negb (Nat.eqb n 0)
  | VStr s => negb (String.eqb s "")
  | VList l => match l with [] => false | _ => true end
  | VDict d => match d with [] => false | _ => true end
  end.

End Py.

(** ** markupsafe and the fragment of jinja2 the two templates use *)

Module Jinja2.
Import Py.

(** [markupsafe.escape]: the five characters that HTML treats specially are
    replaced by entities. *)
Definition escape_char (c : ascii) : string :=
  if Ascii.eqb c "&" then "&amp;"
  else if Ascii.eqb c "<" then "&lt;"
  else if Ascii.eqb c ">" then "&gt;"
  else if Ascii.eqb c "'" then "&#39;"
  else if Ascii.eqb c (ascii_of_nat 34) then "&#34;"
  else String c "".

Fixpoint escape (s : string) : string :=
  match s with
  | "" => ""
  | String c s' => escape_char c ++ escape s'
  end.

(** *** Lexing *)

(** The source cut at the delimiters: template data, the inside of a
    statement tag and the inside of an expression tag. *)
Inductive RawTok : Type :=
| RData (s : string)
| RBlock (s : string)
| RVar (s : string).

Inductive Mode : Type := InData | InBlock | InVar.

Definition flush (acc : list ascii) : string := string_of_list_ascii (rev acc).

Definition ocons {A : Type} (a : A) (o : option (list A)) : option (list A) :=
  match o with
  | Some l => Some (a :: l)
  | None => None
  end.

(** One pass over the source; [acc] holds the characters of the current
    piece, last first.  A tag left open at the end is a syntax error. *)
Fixpoint lex (m : Mode) (acc : list ascii) (s : string) : option (list RawTok) :=
  match s with
  | "" =>
      match m with
      | InData => Some [RData (flush acc)]
      | _ => None
      end
  | String a s' =>
      match m, s' with
      | InData, String b s'' =>
          if Ascii.eqb a "{" && Ascii.eqb b "%"
          then ocons (RData (flush acc)) (lex InBlock [] s'')
          else if Ascii.eqb a "{" && Ascii.eqb b "{"
          then ocons (RData (flush acc)) (lex InVar [] s'')
          else lex InData (a :: acc) s'
      | InData, "" => lex InData (a :: acc) s'
      | InBlock, String b s'' =>
          if Ascii.eqb a "%" && Ascii.eqb b "}"
          then ocons (RBlock (flush acc)) (lex InData [] s'')
          else lex InBlock (a :: acc) s'
      | InVar, String b s'' =>
          if Ascii.eqb a "}" && Ascii.eqb b "}"
          then ocons (RVar (flush acc)) (lex InData [] s'')
          else lex InVar (a :: acc) s'
      | _, "" => None
      end
  end.

(** A tag with its whitespace-control signs read off: [lminus] for a minus
    right after the opening delimiter, [rminus] for one right before the
    closing delimiter. *)
Inductive Tok : Type :=
| TData (s : string)
| TStmt (lminus : bool) (body : string) (rminus : bool)
| TExpr (lminus : bool) (body : string) (rminus : bool).

Definition starts_minus (s : string) : bool :=
  match s with
  | String c _ => Ascii.eqb c "-"
  | "" => false
  end.

Fixpoint ends_minus (s : string) : bool :=
  match s with
  | "" => false
  | String c "" => Ascii.eqb c "-"
  | String _ s' => ends_minus s'
  end.

Definition drop_first (s : string) : string :=
  match s with
  | String _ s' => s'
  | "" => ""
  end.

Fixpoint drop_last (s : string) : string :=
  match s with
  | "" => ""
  | String _ "" => ""
  | String c s' => String c (drop_last s')
  end.

Definition signs (s : string) : bool * string * bool :=
  let l := starts_minus s in
  let s1 := if l then drop_first s else s in
  let r := ends_minus s1 in
  let s2 := if r then drop_last s1 else s1 in
  (l, strip s2, r).

Definition tok_of_raw (t : RawTok) : Tok :=
  match t with
  | RData s => TData s
  | RBlock s => let '(l, b, r) := signs s in TStmt l b r
  | RVar s => let '(l, b, r) := signs s in TExpr l b r
  end.

Definition opens_with_minus (ts : list Tok) : bool :=
  match ts with
  | TStmt l _ _ :: _ => l
  | TExpr l _ _ :: _ => l
  | _ => false
  end.

(** Whitespace control: a minus before a closing delimiter removes the
    whitespace at the start of the data that follows the tag, a minus after
    an opening delimiter removes the whitespace at the end of the data
    before it.  [after_minus] says whether the previous tag closed with a
    minus. *)
Fixpoint ws_control (after_minus : bool) (ts : list Tok) : list Tok :=
  match ts with
  | [] => []
  | TData s :: rest =>
      let s1 := if after_minus then lstrip s else s in
      let s2 := if opens_with_minus rest then rstrip s1 else s1 in
      TData s2 :: ws_control false rest
  | TStmt l b r :: rest => TStmt l b r :: ws_control r rest
  | TExpr l b r :: rest => TExpr l b r :: ws_control r rest
  end.

(** With [keep_trailing_newline] off (the default) one newline at the end
    of the source is dropped before lexing. *)
Fixpoint drop_trailing_newline (s : string) : string :=
  match s with
  | "" => ""
  | String c "" => if Ascii.eqb c (ascii_of_nat 10) then "" else s
  | String c s' => String c (drop_trailing_newline s')
  end.

Definition tokenize (source : string) : option (list Tok) :=
  match lex InData [] (drop_trailing_newline source) with
  | Some raw => Some (ws_control false (map tok_of_raw raw))
  | None => None
  end.

(** *** Parsing *)

Inductive Expr : Type :=
| EName (x : string)
| EAttr (e : Expr) (a : string)
| EFilter (e : Expr) (f : string).

Inductive Node : Type :=
| NData (s : string)
| NOut (e : Expr)
| NIf (c : Expr) (body : list Node)
| NFor (x : string) (it : Expr) (body : list Node).

(** [s.split(d)]: the pieces of [s] between the occurrences of [d]. *)
Fixpoint split_on (d : ascii) (acc : list ascii) (s : string) : list string :=
  match s with
  | "" => [flush acc]
  | String c s' =>
      if Ascii.eqb c d then flush acc :: split_on d [] s'
      else split_on d (c :: acc) s'
  end.

(** [s.split()]: the words of [s]. *)
Fixpoint words (acc : list ascii) (s : string) : list string :=
  match s with
  | "" => match acc with [] => [] | _ => [flush acc] end
  | String c s' =>
      if is_space c
      then match acc with [] => words [] s' | _ => flush acc :: words [] s' end
      else words (c :: acc) s'
  end.

Definition is_ident_char (c : ascii) : bool :=
  let n := nat_of_ascii c in
  (Nat.leb 48 n && Nat.leb n 57) || (Nat.leb 65 n && Nat.leb n 90)
  || (Nat.leb 97 n && Nat.leb n 122) || Nat.eqb n 95.

Fixpoint all_ident (s : string) : bool :=
  match s with
  | "" => true
  | String c s' => is_ident_char c && all_ident s'
  end.

Definition is_ident (s : string) : bool :=
  negb (String.eqb s "") && all_ident s.

(** An expression of the fragment: a name, then attributes after dots,
    then filters after bars. *)
Definition parse_expr (s : string) : option Expr :=
  match map strip (split_on "|" [] s) with
  | [] => None
  | base :: filters =>
      match split_on "." [] base with
      | [] => None
      | x :: attrs =>
          if forallb is_ident (x :: attrs ++ filters)%list
          then Some (fold_left EFilter filters (fold_left EAttr attrs (EName x)))
          else None
      end
  end.

(** How a run of nodes ended. *)
Inductive Stop : Type := AtEnd | AtEndif | AtEndfor.

Fixpoint parse_nodes (fuel : nat) (ts : list Tok)
  : option (list Node * Stop * list Tok) :=
  match fuel with
  | O => None
  | S fuel' =>
      match ts with
      | [] => Some ([], AtEnd, [])
      | TData s :: rest =>
          match parse_nodes fuel' rest with
          | Some (ns, st, r) => Some (NData s :: ns, st, r)
          | None => None
          end
      | TExpr _ b _ :: rest =>
          match parse_expr b, parse_nodes fuel' rest with
          | Some e, Some (ns, st, r) => Some (NOut e :: ns, st, r)
          | _, _ => None
          end
      | TStmt _ b _ :: rest =>
          match words [] b with
          | ["endif"] => Some ([], AtEndif, rest)
          | ["endfor"] => Some ([], AtEndfor, rest)
          | ["if"; c] =>
              match parse_expr c, parse_nodes fuel' rest with
              | Some ce, Some (body, AtEndif, r1) =>
                  match parse_nodes fuel' r1 with
                  | Some (ns, st, r2) => Some (NIf ce body :: ns, st, r2)
                  | None => None
                  end
              | _, _ => None
              end
          | ["for"; x; "in"; it] =>
              match is_ident x, parse_expr it, parse_nodes fuel' rest with
              | true, Some ie, Some (body, AtEndfor, r1) =>
                  match parse_nodes fuel' r1 with
                  | Some (ns, st, r2) => Some (NFor x ie body :: ns, st, r2)
                  | None => None
                  end
              | _, _, _ => None
              end
          | _ => None
          end
      end
  end.

Definition parse (source : string) : option (list Node) :=
  match tokenize source with
  | Some ts =>
      match parse_nodes (S (List.length ts)) ts with
      | Some (ns, AtEnd, _) => Some ns
      | _ => None
      end
  | None => None
  end.

(** *** Rendering, with [undefined=jinja2.StrictUndefined] *)

Definition UndefinedError (what : string) : Exn :=
  mkExn "jinja2.exceptions.UndefinedError" what.

(** What using a name that the context lacks raises. *)
Definition undefined_name (x : string) : Exn :=
  UndefinedError ("'" ++ x ++ "' is undefined").

(** [object_type_repr(obj)] *)
Definition type_repr (v : Value) : string :=
  match v with
  | VNone => "None"
  | VBool _ => "bool object"
  | VInt _ => "int object"
  | VStr _ => "str object"
  | VList _ => "list object"
  | VDict _ => "dict object"
  end.

(** What using an attribute that the object lacks raises. *)
Definition undefined_attr (v : Value) (a : string) : Exn :=
  UndefinedError ("'" ++ type_repr v ++ "' has no attribute '" ++ a ++ "'").
Definition TemplateSyntaxError : Exn :=
  mkExn "jinja2.exceptions.TemplateSyntaxError" "".
Definition TypeError (what : string) : Exn := mkExn "TypeError" what.

(** The text an expression tag writes for a value.  The repr of a list or
    of a dict is not part of the fragment. *)
Definition to_text (v : Value) : Outcome string :=
  match v with
  | VNone => Returned "None"
  | VBool true => Returned "True"
  | VBool false => Returned "False"
  | VInt n => Returned (str_of_nat n)
  | VStr s => Returned s
  | VList _ => Raised (TypeError "repr of a list")
  | VDict _ => Raised (TypeError "repr of a dict")
  end.

Definition apply_filter (f : string) (v : Value) : Outcome Value :=
  if String.eqb f "e" || String.eqb f "escape"
  then obind (to_text v) (fun s => Returned (VStr (escape s)))
  else if String.eqb f "length"
  then match v with
       | VStr s => Returned (VInt (String.length s))
       | VList l => Returned (VInt (List.length l))
       | VDict d => Returned (VInt (List.length d))
       | _ => Raised (TypeError "object has no len()")
       end
  else Raised TemplateSyntaxError.

(** A name is looked up in the context, an attribute of a dict is its item
    of that key; what is missing is undefined, and using it raises. *)
Fixpoint eval (ctx : Dict) (e : Expr) : Outcome Value :=
  match e with
  | EName x =>
      match dict_get ctx x with
      | Some v => Returned v
      | None => Raised (undefined_name x)
      end
  | EAttr e' a =>
      obind (eval ctx e') (fun v =>
        match v with
        | VDict d =>
            match dict_get d a with
            | Some v' => Returned v'
            | None => Raised (undefined_attr v a)
            end
        | _ => Raised (undefined_attr v a)
        end)
  | EFilter e' f => obind (eval ctx e') (apply_filter f)
  end.

(** The items a for loop runs over. *)
Definition iterate (v : Value) : Outcome (list Value) :=
  match v with
  | VList l => Returned l
  | VDict d => Returned (map (fun kv => VStr (fst kv)) d)
  | VStr s => Returned (map (fun c => VStr (String c "")) (list_ascii_of_string s))
  | _ => Raised (TypeError "object is not iterable")
  end.

Definition seq_out (a b : Outcome string) : Outcome string :=
  obind a (fun x => obind b (fun y => Returned (x ++ y)%string)).

Fixpoint render_node (n : Node) (ctx : Dict) {struct n} : Outcome string :=
  match n with
  | NData s => Returned s
  | NOut e => obind (eval ctx e) to_text
  | NIf c body =>
      obind (eval ctx c) (fun v =>
        if truthy v
        then (fix all (ns : list Node) : Outcome string :=
                match ns with
                | [] => Returned ""
                | n' :: ns' => seq_out (render_node n' ctx) (all ns')
                end) body
        else Returned "")
  | NFor x it body =>
      obind (eval ctx it) (fun v =>
        obind (iterate v) (fun items =>
          (fix each (l : list Value) : Outcome string :=
             match l with
             | [] => Returned ""
             | item :: l' =>
                 seq_out
                   ((fix all (ns : list Node) : Outcome string :=
                       match ns with
                       | [] => Returned ""
                       | n' :: ns' =>
                           seq_out (render_node n' ((x, item) :: ctx)) (all ns')
                       end) body)
                   (each l')
             end) items))
  end.

Fixpoint render_nodes (ns : list Node) (ctx : Dict) : Outcome string :=
  match ns with
  | [] => Returned ""
  | n :: ns' => seq_out (render_node n ctx) (render_nodes ns' ctx)
  end.

(** The body of a for loop, once per item, the loop variable bound in front
    of the context. *)
Fixpoint render_each (x : string) (body : list Node) (ctx : Dict)
  (items : list Value) : Outcome string :=
  match items with
  | [] => Returned ""
  | item :: items' =>
      seq_out (render_nodes body ((x, item) :: ctx))
              (render_each x body ctx items')
  end.

(** [jinja2.Template(source).render] with the items of [params] as the
    variables of the template. *)
Definition Template_render (source : string) (params : Dict) : Outcome string :=
  match parse source with
  | Some ns => render_nodes ns params
  | None => Raised TemplateSyntaxError
  end.

End Jinja2.

(** ** json.dumps with indent=4 and sort_keys=True *)

Module Json.
Import Py.

Definition hex_digit (n : nat) : ascii :=
  if Nat.ltb n 10 then ascii_of_nat (48 + n) else ascii_of_nat (87 + n).

(** A character inside a JSON string, with [ensure_ascii] on: printable
    ASCII stands for itself, the quote and the backslash are escaped, the
    rest is written as a short escape or as a four-digit code point. *)
Definition escape_char (c : ascii) : string :=
  let n := nat_of_ascii c in
  let bs := String (ascii_of_nat 92) "" in
  if Nat.eqb n 34 then bs ++ DQ
  else if Nat.eqb n 92 then bs ++ bs
  else if Nat.eqb n 10 then bs ++ "n"
  else if Nat.eqb n 13 then bs ++ "r"
  else if Nat.eqb n 9 then bs ++ "t"
  else if Nat.eqb n 12 then bs ++ "f"
  else if Nat.eqb n 8 then bs ++ "b"
  else if Nat.leb 32 n && Nat.leb n 126 then String c ""
  else bs ++ "u00" ++ String (hex_digit (n / 16)) (String (hex_digit (n mod 16)) "").

Fixpoint escape (s : string) : string :=
  match s with
  | "" => ""
  | String c s' => escape_char c ++ escape s'
  end.

Definition quote (s : string) : string := DQ ++ escape s ++ DQ.

Fixpoint spaces (n : nat) : string :=
  match n with
  | O => ""
  | S n' => " " ++ spaces n'
  end.

(** A newline and the indentation of nesting depth [level]. *)
Definition newline_indent (level : nat) : string := LF ++ spaces (4 * level).

Fixpoint insert_item (kv : string * string) (l : list (string * string))
  : list (string * string) :=
  match l with
  | [] => [kv]
  | kv' :: l' =>
      if String.leb (fst kv) (fst kv') then kv :: l
      else kv' :: insert_item kv l'
  end.

(** [sorted(items)]: by key, in the order of the code points. *)
Definition sort_items (l : list (string * string)) : list (string * string) :=
  fold_right insert_item [] l.

Definition bracket (open close : string) (level : nat) (items : list string)
  : string :=
  match items with
  | [] => open ++ close
  | _ =>
      open ++ newline_indent (S level)
      ++ join ("," ++ newline_indent (S level)) items
      ++ newline_indent level ++ close
  end.

Fixpoint encode (level : nat) (v : Value) {struct v} : string :=
  match v with
  | VNone => "null"
  | VBool true => "true"
  | VBool false => "false"
  | VInt n => str_of_nat n
  | VStr s => quote s
  | VList l => bracket "[" "]" level (map (encode (S level)) l)
  | VDict d =>
      bracket "{" "}" level
        (map (fun kv => quote (fst kv) ++ ": " ++ snd kv)
           (sort_items
              (map (fun kv => match kv with
                              | (k, v') => (k, encode (S level) v')
                              end) d)))
  end.

(** [json.dumps(contents, indent=4, sort_keys=True)], as Python 3 writes
    it: with an indent the items are separated by a comma and a newline,
    with no blank after the comma. *)
Definition dumps (contents : Value) : string := encode 0 contents.

End Json.

(** ** The world a request runs in *)

Import Py.

(** What a request can observe and change outside the middleware: what
    [socket.gethostname()] does for this request, and the names of the
    backends whose [healthcheck()] has been invoked so far, in order. *)
Record World : Type := mkWorld {
  gethostname_outcome : Outcome string;
  invoked : list string
}.

(** A computation that reads and updates the world and returns or raises. *)
Definition M (A : Type) : Type := World -> Outcome A * World.

Definition ret {A : Type} (a : A) : M A := fun w => (Returned a, w).

Definition raise {A : Type} (e : Exn) : M A := fun w => (Raised e, w).

Definition bind {A B : Type} (c : M A) (k : A -> M B) : M B :=
  fun w =>
    match c w with
    | (Returned a, w') => k a w'
    | (Raised e, w') => (Raised e, w')
    end.

Definition lift {A : Type} (o : Outcome A) : M A := fun w => (o, w).

(** [try: c  except <handles>: h] *)
Definition try_except {A : Type} (c : M A) (handles : Exn -> bool) (h : M A) : M A :=
  fun w =>
    match c w with
    | (Returned a, w') => (Returned a, w')
    | (Raised e, w') => if handles e then h w' else (Raised e, w')
    end.

Notation "x <- c ;; k" := (bind c (fun x => k))
  (at level 61, c at next level, right associativity).

(** [socket.gethostname()] *)
Definition socket_gethostname : M string :=
  fun w => (gethostname_outcome w, w).

Definition socket_error : string := "socket.error".

(** The exception types of the socket module that [except socket.error]
    catches: the class and its subclasses there.  Where socket.error is
    OSError (Python 3) the other OSError types are caught as well; the
    properties speak of a handled lookup only for the types listed here,
    and of an unhandled one only for types unrelated to OSError. *)
Definition socket_errors : list string :=
  [socket_error; "socket.herror"; "socket.gaierror"; "socket.timeout"].

Definition is_socket_error (e : Exn) : bool :=
  existsb (String.eqb (exc_type e)) socket_errors.

(** ** Collaborators: check results, backends, requests, responses *)

(** A Python class: the module that defines it and its name. *)
Record PyClass : Type := mkClass { cls_module : string; cls_name : string }.

(** [oslo_utils.reflection.get_class_name(obj, fully_qualified)], given the
    class of [obj] (a class that is not a builtin). *)
Definition get_class_name (c : PyClass) (fully_qualified : bool) : string :=
  if fully_qualified then cls_module c ++ "." ++ cls_name c else cls_name c.

(** The object a backend's [healthcheck()] returns: the class it is an
    instance of and its two attributes. *)
Record CheckResult : Type := mkResult {
  result_type : PyClass;
  available : bool;
  reason : string
}.

(** A loaded backend: the class of the plugin object and what its
    [healthcheck()] does when this request calls it. *)
Record Plugin : Type := mkPlugin {
  plugin_type : PyClass;
  healthcheck_outcome : Outcome CheckResult
}.

(** An extension of the stevedore manager: its configured name and the
    plugin object, [ext.obj]. *)
Record Extension : Type := mkExt { name : string; obj : Plugin }.

(** [ext.obj.healthcheck()]: the invocation is recorded, then the plugin
    returns or raises. *)
Definition healthcheck (ext : Extension) : M CheckResult :=
  fun w =>
    (healthcheck_outcome (obj ext),
     mkWorld (gethostname_outcome w) (invoked w ++ [name ext])%list).

(** [req.accept]: the parsed Accept header, through its one method used
    here; [best_match offers] is the offer the header prefers, or None. *)
Record Accept : Type := mkAccept { best_match : list string -> option string }.

Record Request : Type := mkRequest {
  path : string;
  method : string;
  accept : Accept
}.

(** [webob.response.Response(status, body, content_type)] *)
Record Response : Type := mkResponse {
  status : nat;
  body : string;
  content_type : string
}.

(** The codes of [webob.exc.HTTPOk], [HTTPNoContent] and
    [HTTPServiceUnavailable]. *)
Definition HTTPOk_code : nat := 200.
Definition HTTPNoContent_code : nat := 204.
Definition HTTPServiceUnavailable_code : nat := 503.

(** ** The module *)

Definition _expand_template (contents : string) (params : Dict) : Outcome string :=
  Jinja2.Template_render contents params.

(** The attributes [__init__] sets from the configuration. *)
Record Healthcheck : Type := mkHealthcheck {
  _path : string;
  _show_details : bool;
  _backends : list Extension
}.

Definition HEALTHY_TO_STATUS_CODES (healthy : bool) : nat :=
  if healthy then HTTPOk_code else HTTPServiceUnavailable_code.

Definition HEAD_HEALTHY_TO_STATUS_CODES (healthy : bool) : nat :=
  if healthy then HTTPNoContent_code else HTTPServiceUnavailable_code.

Definition PLAIN_RESPONSE_TEMPLATE : string := "
{% for reason in reasons %}
{% if reason %}{{reason}}{% endif -%}
{% endfor %}
".

Definition HTML_RESPONSE_TEMPLATE : string := "
<HTML>
<HEAD><TITLE>Healthcheck Status</TITLE></HEAD>
<BODY>
{% if detailed -%}
{% if hostname -%}
<H1>Server status for {{hostname|e}}</H1>
{%- endif %}
{%- endif %}
<H2>Result of {{results|length}} checks:</H2>
<TABLE bgcolor=" ++ DQ ++ "#ffffff" ++ DQ ++ " border=" ++ DQ ++ "1" ++ DQ ++ ">
<TBODY>
{% for result in results -%}
{% if result.reason -%}
<TR>
{% if detailed -%}
    <TD>{{result.class|e}}</TD>
{%- endif %}
    <TD>{{result.reason|e}}</TD>
</TR>
{%- endif %}
{%- endfor %}
</TBODY>
</TABLE>
</BODY>
</HTML>
".

Definition _pretty_json_dumps (contents : Value) : string := Json.dumps contents.

Fixpoint _are_results_healthy (results : list CheckResult) : bool :=
  match results with
  | [] => true
  | result :: rest =>
      if negb (available result) then false else _are_results_healthy rest
  end.

Definition _make_text_response (self : Healthcheck) (results : list CheckResult)
  (healthy : bool) : M (string * string) :=
  let params :=
    [ ("reasons", VList (map (fun result => VStr (reason result)) results));
      ("detailed", VBool (_show_details self)) ] in
  body <- lift (_expand_template PLAIN_RESPONSE_TEMPLATE params) ;;
  ret (strip body, "text/plain").

(** The dict built for one result in detail mode. *)
Definition translate (result : CheckResult) : Value :=
  VDict [ ("reason", VStr (reason result));
          ("class", VStr (get_class_name (result_type result) false)) ].

Definition _make_json_response (self : Healthcheck) (results : list CheckResult)
  (healthy : bool) : M (string * string) :=
  let body :=
    if _show_details self
    then
      let body := [ ("detailed", VBool true) ] in
      let reasons :=
        fold_left (fun reasons result => reasons ++ [translate result])%list
                  results [] in
      dict_set body "reasons" (VList reasons)
    else
      [ ("reasons", VList (map (fun result => VStr (reason result)) results));
        ("detailed", VBool false) ] in
  ret (_pretty_json_dumps (VDict body), "application/json").

Definition _make_head_response (self : Healthcheck) (results : list CheckResult)
  (healthy : bool) : M (string * string) :=
  ret ("", "text/plain").

Definition _make_html_response (self : Healthcheck) (results : list CheckResult)
  (healthy : bool) : M (string * string) :=
  hostname <- try_except (h <- socket_gethostname ;; ret (VStr h))
                         is_socket_error (ret VNone) ;;
  let translated_results :=
    fold_left (fun translated result => translated ++ [translate result])%list
              results [] in
  let params :=
    [ ("healthy", VBool healthy);
      ("hostname", hostname);
      ("results", VList translated_results);
      ("detailed", VBool (_show_details self)) ] in
  body <- lift (_expand_template HTML_RESPONSE_TEMPLATE params) ;;
  ret (strip body, "text/html").

Definition Functor : Type :=
  Healthcheck -> list CheckResult -> bool -> M (string * string).

(** The ordered mapping from media type to renderer set up by [__init__]. *)
Definition _accept_to_functor : list (string * Functor) :=
  [ ("text/plain", _make_text_response);
    ("text/html", _make_html_response);
    ("application/json", _make_json_response) ].

Definition _accept_order : list string := map fst _accept_to_functor.

Definition _default_accept : string := "text/plain".

Definition KeyError (key : string) : Exn := mkExn "KeyError" key.

(** [self._accept_to_functor[accept_type]]; the key is what the variable
    [accept_type] holds, a string or None. *)
Fixpoint lookup_functor (table : list (string * Functor))
  (accept_type : option string) : M Functor :=
  match table with
  | [] => raise (KeyError (match accept_type with Some t => t | None => "None" end))
  | (k, f) :: table' =>
      match accept_type with
      | Some t => if String.eqb k t then ret f else lookup_functor table' accept_type
      | None => lookup_functor table' accept_type
      end
  end.

(** [[ext.obj.healthcheck() for ext in self._backends]] *)
Fixpoint collect_results (backends : list Extension) : M (list CheckResult) :=
  match backends with
  | [] => ret []
  | ext :: rest =>
      result <- healthcheck ext ;;
      results <- collect_results rest ;;
      ret (result :: results)
  end.

(** [not accept_type], for the value [best_match] returned. *)
Definition not_ (accept_type : option string) : bool :=
  match accept_type with
  | None => true
  | Some t => String.eqb t ""
  end.

(** [process_request(self, req)], called with a request object, as the
    middleware base class calls it; the wsgify decorator then runs the
    function as it is.  The result is None when the request is left to the
    rest of the chain, and a response otherwise. *)
Definition process_request (self : Healthcheck) (req : Request) : M (option Response) :=
  if negb (String.eqb (path req) (_path self)) then ret None
  else
    results <- collect_results (_backends self) ;;
    let healthy := _are_results_healthy results in
    status_functor <-
      (if String.eqb (method req) "HEAD"
       then ret (HEAD_HEALTHY_TO_STATUS_CODES healthy, _make_head_response)
       else
         let status := HEALTHY_TO_STATUS_CODES healthy in
         let accept_type := best_match (accept req) _accept_order in
         let accept_type :=
           if not_ accept_type then Some _default_accept else accept_type in
         functor <- lookup_functor _accept_to_functor accept_type ;;
         ret (status, functor)) ;;
    let '(status, functor) := status_functor in
    body_content_type <- functor self results healthy ;;
    let '(body, content_type) := body_content_type in
    ret (Some (mkResponse status body content_type)).

(** ** Vocabulary of the properties *)

(** The media type the renderer of a request that is not a HEAD request is
    looked up under: the value of [accept_type] at the lookup. *)
Definition negotiated (req : Request) : option string :=
  let accept_type := best_match (accept req) _accept_order in
  if not_ accept_type then Some _default_accept else accept_type.

(** The backends all return for this request, [results] in their order. *)
Definition backends_return (self : Healthcheck) (results : list CheckResult) : Prop :=
  Forall2 (fun ext result => healthcheck_outcome (obj ext) = Returned result)
          (_backends self) results.

(** The world once every backend of [self] has been invoked. *)
Definition after_checks (self : Healthcheck) (w : World) : World :=
  mkWorld (gethostname_outcome w) (invoked w ++ map name (_backends self))%list.

Definition has_reason (result : CheckResult) : bool :=
  negb (String.eqb (reason result) "").

(** The host name the HTML template is given: None when the lookup raised
    [socket.error]. *)
Definition hostname_value (host : option string) : Value :=
  match host with
  | Some h => VStr h
  | None => VNone
  end.

(** A string that [rstrip] leaves alone and that is not empty. *)
Definition kept (t : string) : Prop := rstrip t = t /\ t <> "".

(** No character of [s] is the less-than sign. *)
Fixpoint lt_free (s : string) : bool :=
  match s with
  | "" => true
  | String c s' => negb (Ascii.eqb c "<") && lt_free s'
  end.

(** The item of one result in the JSON document. *)
Definition json_item (detailed : bool) (result : CheckResult) : Value :=
  if detailed
  then VDict [ ("reason", VStr (reason result));
               ("class", VStr (cls_name (result_type result))) ]
  else VStr (reason result).

(** *** Layout of the HTML document *)

(** The host name heading is part of the document. *)
Definition heading_shown (detailed : bool) (host : option string) : bool :=
  match host with
  | Some h => detailed && negb (String.eqb h "")
  | None => false
  end.

Definition html_heading (detailed : bool) (host : option string) : string :=
  match host with
  | Some h =>
      if detailed && negb (String.eqb h "")
      then "<H1>Server status for " ++ Jinja2.escape h ++ "</H1>"
      else ""
  | None => ""
  end.

Definition html_row (detailed : bool) (result : CheckResult) : string :=
  "<TR>
" ++ (if detailed
      then "<TD>" ++ Jinja2.escape (cls_name (result_type result)) ++ "</TD>"
      else "")
  ++ "
    <TD>" ++ Jinja2.escape (reason result) ++ "</TD>
</TR>".

Definition html_document (detailed : bool) (host : option string)
  (results : list CheckResult) : string :=
  "<HTML>
<HEAD><TITLE>Healthcheck Status</TITLE></HEAD>
<BODY>
" ++ html_heading detailed host ++ "
<H2>Result of " ++ str_of_nat (List.length results) ++ " checks:</H2>
<TABLE bgcolor=" ++ DQ ++ "#ffffff" ++ DQ ++ " border=" ++ DQ ++ "1" ++ DQ ++ ">
<TBODY>
" ++ cat (map (html_row detailed) (filter has_reason results)) ++ "
</TBODY>
</TABLE>
</BODY>
</HTML>".

(** The nodes of the body of the for loop of the HTML template. *)
Definition row_nodes : list Jinja2.Node :=
  [ Jinja2.NData "";
    Jinja2.NIf (Jinja2.EAttr (Jinja2.EName "result") "reason")
      [ Jinja2.NData ("<TR>" ++ LF);
        Jinja2.NIf (Jinja2.EName "detailed")
          [ Jinja2.NData "<TD>";
            Jinja2.NOut (Jinja2.EFilter (Jinja2.EAttr (Jinja2.EName "result") "class") "e");
            Jinja2.NData "</TD>" ];
        Jinja2.NData (LF ++ "    <TD>");
        Jinja2.NOut (Jinja2.EFilter (Jinja2.EAttr (Jinja2.EName "result") "reason") "e");
        Jinja2.NData ("</TD>" ++ LF ++ "</TR>") ];
    Jinja2.NData "" ].

(** *** The documents the specification describes, in its words *)

(** The JSON item of a backend in detail mode as the specification words
    it: the reason, and as class the short type name of the backend
    implementation. *)
Definition spec_json_item (ext : Extension) (result : CheckResult) : Value :=
  VDict [ ("reason", VStr (reason result));
          ("class", VStr (get_class_name (plugin_type (obj ext)) false)) ].

Definition spec_json_reasons (self : Healthcheck) (results : list CheckResult) : Value :=
  if _show_details self
  then VList (map (fun er => spec_json_item (fst er) (snd er))
                  (combine (_backends self) results))
  else VList (map (fun result => VStr (reason result)) results).

(** The text/plain body as the specification words it: the reasons that
    are not empty, joined by newlines, trimmed. *)
Definition spec_text_body (results : list CheckResult) : string :=
  strip (join LF (filter (fun r => negb (String.eqb r "")) (map reason results))).

(** *** Sample collaborators *)

Definition HealthcheckResult : PyClass :=
  mkClass "oslo_middleware.healthcheck.pluginbase" "HealthcheckResult".

Definition DisableByFileHealthcheck : PyClass :=
  mkClass "oslo_middleware.healthcheck.disable_by_file" "DisableByFileHealthcheck".

Definition returning (ext_name : string) (is_available : bool) (why : string) : Extension :=
  mkExt ext_name
        (mkPlugin DisableByFileHealthcheck
                  (Returned (mkResult HealthcheckResult is_available why))).

Definition raising (ext_name : string) (e : Exn) : Extension :=
  mkExt ext_name (mkPlugin DisableByFileHealthcheck (Raised e)).

Definition accepting (t : option string) : Accept := mkAccept (fun _ => t).

Definition sample_world : World := mkWorld (Returned "node-1") [].

(** ** Construction of the middleware *)

(** The configuration handed to [__init__]: string keys and string values,
    as a paste filter section gives them. *)
Definition Conf : Type := list (string * string).

(** [conf.get(key)] *)
Fixpoint conf_get (conf : Conf) (key : string) : option string :=
  match conf with
  | [] => None
  | (k, v) :: conf' => if String.eqb k key then Some v else conf_get conf' key
  end.

(** [c.lower()] for a code point below 256: the letters A to Z and the
    accented capitals have a lower case 32 places up. *)
Definition lower_char (c : ascii) : ascii :=
  let n := nat_of_ascii c in
  if (Nat.leb 65 n && Nat.leb n 90)
     || (Nat.leb 192 n && Nat.leb n 222 && negb (Nat.eqb n 215))
  then ascii_of_nat (n + 32)
  else c.

Fixpoint lower (s : string) : string :=
  match s with
  | "" => ""
  | String c s' => String (lower_char c) (lower s')
  end.

Definition TRUE_STRINGS : list string := ["1"; "t"; "true"; "on"; "y"; "yes"].

(** [oslo_utils.strutils.bool_from_string(subject)], not strict, default
    False, for a configuration value: a value that is missing is None and
    is read as the text None. *)
Definition bool_from_string (subject : option string) : bool :=
  let subject := match subject with Some s => s | None => "None" end in
  let lowered := lower (strip subject) in
  existsb (String.eqb lowered) TRUE_STRINGS.

(** [self._backend_names] as [__init__] leaves it. *)
Definition _backend_names (conf : Conf) : list string :=
  match conf_get conf "backends" with
  | Some backends =>
      if negb (String.eqb backends "")
      then Jinja2.split_on "," [] backends
      else []
  | None => []
  end.

(** [Healthcheck.__init__(self, application, conf)]: the attributes the
    request handler reads.  [manager] stands for the stevedore
    NamedExtensionManager, which loads the named backends in the order of
    the names. *)
Definition __init__ (manager : list string -> list Extension) (conf : Conf)
  : Healthcheck :=
  mkHealthcheck
    (match conf_get conf "path" with Some p => p | None => "/healthcheck" end)
    (bool_from_string (conf_get conf "detailed"))
    (manager (_backend_names conf)).

(** ** Vocabulary of the further properties *)

(** The lookup of the host name returns or fails with socket.error. *)
Definition hostname_ok (w : World) : Prop :=
  forall e, gethostname_outcome w = Raised e -> is_socket_error e = true.

(** Every character of [s] is a newline or printable ASCII. *)
Fixpoint printable (s : string) : bool :=
  match s with
  | "" => true
  | String c s' =>
      let n := nat_of_ascii c in
      (Nat.eqb n 10 || (Nat.leb 32 n && Nat.leb n 126)) && printable s'
  end.

(** No character of [s] is the comma. *)
Fixpoint comma_free (s : string) : bool :=
  match s with
  | "" => true
  | String c s' => negb (Ascii.eqb c ",") && comma_free s'
  end.

(** The text of one item of the JSON array of reasons, three levels deep
    in detail mode. *)
Definition json_item_text (detailed : bool) (result : CheckResult) : string :=
  if detailed
  then "{" ++ Json.newline_indent 3
       ++ Json.quote "class" ++ ": " ++ Json.quote (cls_name (result_type result))
       ++ "," ++ Json.newline_indent 3
       ++ Json.quote "reason" ++ ": " ++ Json.quote (reason result)
       ++ Json.newline_indent 2 ++ "}"
  else Json.quote (reason result).

(** The text of the whole JSON document. *)
Definition json_text (detailed : bool) (results : list CheckResult) : string :=
  "{" ++ Json.newline_indent 1
  ++ Json.quote "detailed" ++ ": " ++ (if detailed then "true" else "false")
  ++ "," ++ Json.newline_indent 1
  ++ Json.quote "reasons" ++ ": "
  ++ Json.bracket "[" "]" 1 (map (json_item_text detailed) results)
  ++ Json.newline_indent 0 ++ "}".

(** The backends a request to the configured path invokes: each one in
    turn, up to and including the first one that raises. *)
Fixpoint reached (backends : list Extension) : list Extension :=
  match backends with
  | [] => []
  | ext :: rest =>
      match healthcheck_outcome (obj ext) with
      | Returned _ => ext :: reached rest
      | Raised _ => [ext]
      end
  end.

(** Built-in exception types that are neither socket.error nor, in any
    version of Python, derived from it or from OSError. *)
Definition unrelated_errors : list string :=
  [ "MemoryError"; "KeyboardInterrupt"; "SystemExit"; "SystemError";
    "RuntimeError"; "NotImplementedError"; "ValueError"; "UnicodeError";
    "UnicodeDecodeError"; "UnicodeEncodeError"; "TypeError"; "AttributeError";
    "NameError"; "ImportError"; "LookupError"; "KeyError"; "IndexError";
    "AssertionError"; "ArithmeticError"; "ZeroDivisionError"; "OverflowError";
    "ReferenceError"; "BufferError" ].

(** *** More sample collaborators *)

Definition sample_self (detailed : bool) : Healthcheck :=
  mkHealthcheck "/healthcheck" detailed
                [returning "disable_by_file" false "DISABLED BY FILE"].

Definition sample_request (how : string) (t : option string) : Request :=
  mkRequest "/healthcheck" how (accepting t).

Definition socket_failure_world : World :=
  mkWorld (Raised (mkExn socket_error "lookup failed")) [].

(** * Properties *)

(** ** Strings *)

Lemma append_nil_r (s : string) : s ++ "" = s.
Proof. induction s; simpl; congruence. Qed.

Lemma append_assoc (a b c : string) : (a ++ b) ++ c = a ++ b ++ c.
Proof. induction a; simpl; congruence. Qed.

Ltac norm_str := repeat (rewrite ?append_nil_r, ?append_assoc; cbn [append]).

Lemma cat_map_filter {A : Type} (p : A -> bool) (f : A -> string) (l : list A) :
  cat (map (fun a => if p a then f a else "") l) = cat (map f (filter p l)).
Proof.
  induction l as [|a l IH]; [reflexivity|].
  cbn [map filter cat]. rewrite IH. destruct (p a); reflexivity.
Qed.

Lemma fold_left_append {A B : Type} (f : A -> B) (l : list A) (acc : list B) :
  fold_left (fun acc a => acc ++ [f a])%list l acc = (acc ++ map f l)%list.
Proof.
  revert acc. induction l as [|a l IH]; intros acc; cbn.
  - now rewrite app_nil_r.
  - rewrite IH, <- app_assoc. reflexivity.
Qed.

(** [sep.join] of a list that is not empty: the first string, then every
    other one behind a separator. *)
Lemma join_cons (sep r : string) (rs : list string) :
  join sep (r :: rs) = r ++ cat (map (append sep) rs).
Proof.
  unfold join. revert r. induction rs as [|r' rs IH]; intros r.
  - cbn. now rewrite append_nil_r.
  - change (String.concat sep (r :: r' :: rs))
      with (r ++ sep ++ String.concat sep (r' :: rs)).
    rewrite IH. cbn [map cat]. now rewrite append_assoc.
Qed.

(** *** strip *)

Lemma kept_app (s t : string) : kept t -> kept (s ++ t).
Proof.
  intros [Ht Hne]. induction s as [|c s [IH1 IH2]].
  - split; assumption.
  - split; [|discriminate]. cbn [append rstrip]. rewrite IH1.
    destruct (s ++ t); [contradiction|reflexivity].
Qed.

Lemma lstrip_spaces (s : string) :
  (forall c, In c (list_ascii_of_string s) -> is_space c = true) -> lstrip s = "".
Proof.
  induction s as [|c s IH]; intros H; [reflexivity|].
  cbn [lstrip]. rewrite (H c (or_introl eq_refl)).
  apply IH. intros c' Hc'. apply H. right. exact Hc'.
Qed.

(** ** Templates *)

Section Rendering.
Import Jinja2.

Lemma render_all_eq ctx body :
  (fix all (ns : list Node) : Outcome string :=
     match ns with
     | [] => Returned ""
     | n' :: ns' => seq_out (render_node n' ctx) (all ns')
     end) body = render_nodes body ctx.
Proof.
  induction body as [|n ns IH]; simpl; [reflexivity|]. rewrite IH. reflexivity.
Qed.

Lemma render_node_if c body ctx :
  render_node (NIf c body) ctx =
  obind (eval ctx c)
        (fun v => if truthy v then render_nodes body ctx else Returned "").
Proof.
  simpl. destruct (eval ctx c) as [v|e]; simpl; [|reflexivity].
  destruct (truthy v); [|reflexivity]. apply render_all_eq.
Qed.

Lemma render_node_for x it body ctx :
  render_node (NFor x it body) ctx =
  obind (eval ctx it) (fun v => obind (iterate v) (render_each x body ctx)).
Proof.
  simpl. destruct (eval ctx it) as [v|e]; simpl; [|reflexivity].
  destruct (iterate v) as [items|e]; simpl; [|reflexivity].
  induction items as [|item items IH]; simpl; [reflexivity|].
  rewrite IH. rewrite render_all_eq. reflexivity.
Qed.

(** The plain template as jinja2 parses it: the newline after the for tag
    stays in the loop body, the one after [endif -] and the last one go. *)
Lemma parse_plain :
  parse PLAIN_RESPONSE_TEMPLATE =
  Some [ NData LF;
         NFor "reason" (EName "reasons")
           [ NData LF;
             NIf (EName "reason") [NData ""; NOut (EName "reason"); NData ""];
             NData "" ];
         NData "" ].
Proof. vm_compute. reflexivity. Qed.

Lemma render_each_plain ctx reasons :
  render_each "reason"
    [ NData LF;
      NIf (EName "reason") [NData ""; NOut (EName "reason"); NData ""];
      NData "" ] ctx (map VStr reasons)
  = Returned (cat (map (append LF) reasons)).
Proof.
  induction reasons as [|r rs IH]; [reflexivity|].
  cbn [map render_each]. rewrite IH.
  cbn [render_nodes]. rewrite render_node_if.
  cbn [eval dict_get String.eqb Ascii.eqb Bool.eqb obind truthy].
  destruct r as [|c r']; cbn; rewrite ?append_nil_r; reflexivity.
Qed.

(** What the plain template expands to: a newline, then every reason
    behind a newline of its own. *)
Lemma plain_render reasons detailed :
  _expand_template PLAIN_RESPONSE_TEMPLATE
    [("reasons", VList (map VStr reasons)); ("detailed", VBool detailed)]
  = Returned (LF ++ cat (map (append LF) reasons)).
Proof.
  unfold _expand_template, Template_render. rewrite parse_plain.
  cbn [render_nodes]. rewrite render_node_for.
  cbn [eval dict_get String.eqb Ascii.eqb Bool.eqb obind iterate].
  rewrite render_each_plain. cbn. rewrite append_nil_r. reflexivity.
Qed.

Lemma parse_html :
  parse HTML_RESPONSE_TEMPLATE =
  Some [ NData (LF ++ "<HTML>" ++ LF
                ++ "<HEAD><TITLE>Healthcheck Status</TITLE></HEAD>"
                ++ LF ++ "<BODY>" ++ LF);
         NIf (EName "detailed")
           [ NData "";
             NIf (EName "hostname")
               [ NData "<H1>Server status for ";
                 NOut (EFilter (EName "hostname") "e");
                 NData "</H1>" ];
             NData "" ];
         NData (LF ++ "<H2>Result of ");
         NOut (EFilter (EName "results") "length");
         NData (" checks:</H2>" ++ LF ++ "<TABLE bgcolor=" ++ DQ ++ "#ffffff" ++ DQ
                ++ " border=" ++ DQ ++ "1" ++ DQ ++ ">" ++ LF ++ "<TBODY>" ++ LF);
         NFor "result" (EName "results") row_nodes;
         NData (LF ++ "</TBODY>" ++ LF ++ "</TABLE>" ++ LF ++ "</BODY>" ++ LF
                ++ "</HTML>") ].
Proof. vm_compute. reflexivity. Qed.

Lemma render_each_row healthy hostname all detailed results :
  render_each "result" row_nodes
    [ ("healthy", VBool healthy); ("hostname", hostname);
      ("results", all); ("detailed", VBool detailed) ]
    (map translate results)
  = Returned (cat (map (fun r => if has_reason r then html_row detailed r else "")
                       results)).
Proof.
  induction results as [|r rs IH]; [reflexivity|].
  cbn [map render_each]. rewrite IH. unfold row_nodes at 1.
  cbn [render_nodes]. rewrite render_node_if.
  cbn [eval dict_get String.eqb Ascii.eqb Bool.eqb obind truthy translate].
  unfold has_reason at 2.
  destruct (String.eqb (reason r) "").
  - cbn. reflexivity.
  - cbn [negb render_nodes]. rewrite render_node_if. unfold html_row at 2.
    destruct detailed; cbn; norm_str; reflexivity.
Qed.

(** What the HTML template expands to: a newline, then the document. *)
Lemma html_render healthy host detailed results :
  _expand_template HTML_RESPONSE_TEMPLATE
    [ ("healthy", VBool healthy); ("hostname", hostname_value host);
      ("results", VList (map translate results)); ("detailed", VBool detailed) ]
  = Returned (LF ++ html_document detailed host results).
Proof.
  unfold _expand_template, Template_render. rewrite parse_html.
  cbn [render_nodes]. rewrite render_node_for, render_node_if.
  cbn [eval dict_get String.eqb Ascii.eqb Bool.eqb obind iterate truthy].
  rewrite render_each_row, cat_map_filter.
  unfold html_document, html_heading.
  destruct detailed.
  - cbn [render_nodes]. rewrite render_node_if.
    cbn [eval dict_get String.eqb Ascii.eqb Bool.eqb obind iterate truthy].
    destruct host as [h|]; cbn [hostname_value truthy].
    + destruct (String.eqb h ""); cbn; rewrite length_map; norm_str; reflexivity.
    + cbn. rewrite length_map; norm_str; reflexivity.
  - destruct host; cbn; rewrite length_map; norm_str; reflexivity.
Qed.

End Rendering.

(** ** Invoking the backends *)

Lemma collect_results_returns (backends : list Extension) (results : list CheckResult)
  (w : World) :
  Forall2 (fun ext result => healthcheck_outcome (obj ext) = Returned result)
          backends results ->
  collect_results backends w =
  (Returned results,
   mkWorld (gethostname_outcome w) (invoked w ++ map name backends)%list).
Proof.
  intros H. revert w. induction H as [|ext r exts rs Hext _ IH]; intros w.
  - cbn. rewrite app_nil_r. destruct w; reflexivity.
  - cbn [collect_results]. unfold bind at 1. unfold healthcheck at 1.
    rewrite Hext. unfold bind at 1. rewrite IH. cbn.
    rewrite <- app_assoc. reflexivity.
Qed.

Lemma collect_results_raises (pre post : list Extension) (ext : Extension)
  (results : list CheckResult) (e : Exn) (w : World) :
  Forall2 (fun ext result => healthcheck_outcome (obj ext) = Returned result)
          pre results ->
  healthcheck_outcome (obj ext) = Raised e ->
  collect_results (pre ++ ext :: post) w =
  (Raised e,
   mkWorld (gethostname_outcome w) (invoked w ++ map name pre ++ [name ext])%list).
Proof.
  intros H He. revert w. induction H as [|x r xs rs Hx _ IH]; intros w.
  - cbn [app collect_results map]. unfold bind, healthcheck. rewrite He. reflexivity.
  - cbn [app collect_results map]. unfold bind at 1. unfold healthcheck at 1.
    rewrite Hx. unfold bind at 1. rewrite IH. cbn.
    rewrite <- app_assoc. reflexivity.
Qed.

(** Results come back only when every backend returned; otherwise the
    exception is that of the first backend that raised. *)
Lemma collect_results_inv (backends : list Extension) (w : World) :
  match collect_results backends w with
  | (Returned results, w') =>
      Forall2 (fun ext result => healthcheck_outcome (obj ext) = Returned result)
              backends results
  | (Raised e, w') =>
      exists pre ext post results,
        backends = (pre ++ ext :: post)%list /\
        Forall2 (fun ext result => healthcheck_outcome (obj ext) = Returned result)
                pre results /\
        healthcheck_outcome (obj ext) = Raised e
  end.
Proof.
  revert w. induction backends as [|ext exts IH]; intros w.
  - cbn. constructor.
  - cbn [collect_results]. unfold bind at 1. unfold healthcheck at 1.
    destruct (healthcheck_outcome (obj ext)) as [r|e] eqn:Hext.
    + unfold bind at 1.
      specialize (IH (mkWorld (gethostname_outcome w) (invoked w ++ [name ext])%list)).
      destruct (collect_results exts _) as [[rs|e] w'].
      * cbn. constructor; assumption.
      * destruct IH as (pre & x & post & rs & -> & Hpre & Hx).
        exists (ext :: pre), x, post, (r :: rs). repeat split; auto.
    + exists [], ext, exts, []. repeat split; auto.
Qed.

(** ** The request handler, branch by branch *)

Lemma process_request_other (self : Healthcheck) (req : Request) (w : World) :
  path req <> _path self -> process_request self req w = (Returned None, w).
Proof.
  intros H. unfold process_request.
  apply String.eqb_neq in H. rewrite H. reflexivity.
Qed.

Lemma process_request_at_path (self : Healthcheck) (req : Request) (w : World) :
  path req = _path self ->
  process_request self req w =
  (results <- collect_results (_backends self) ;;
   let healthy := _are_results_healthy results in
   status_functor <-
     (if String.eqb (method req) "HEAD"
      then ret (HEAD_HEALTHY_TO_STATUS_CODES healthy, _make_head_response)
      else
        functor <- lookup_functor _accept_to_functor (negotiated req) ;;
        ret (HEALTHY_TO_STATUS_CODES healthy, functor)) ;;
   let '(status, functor) := status_functor in
   body_content_type <- functor self results healthy ;;
   let '(body, content_type) := body_content_type in
   ret (Some (mkResponse status body content_type))) w.
Proof.
  intros H. unfold process_request. rewrite H, String.eqb_refl. reflexivity.
Qed.

Lemma process_request_head (self : Healthcheck) (req : Request) (w : World)
  (results : list CheckResult) :
  path req = _path self ->
  method req = "HEAD" ->
  backends_return self results ->
  process_request self req w =
  (Returned (Some (mkResponse
                     (HEAD_HEALTHY_TO_STATUS_CODES (_are_results_healthy results))
                     "" "text/plain")),
   after_checks self w).
Proof.
  intros Hp Hm Hb. rewrite process_request_at_path by exact Hp.
  unfold bind at 1. rewrite (collect_results_returns _ _ _ Hb).
  rewrite Hm. reflexivity.
Qed.

(** A request that is not a HEAD request gets the status of the verdict and
    the body and content type of the renderer [functor] found under its
    negotiated media type. *)
Lemma process_request_rendered (self : Healthcheck) (req : Request) (w : World)
  (results : list CheckResult) (functor : Functor) :
  path req = _path self ->
  method req <> "HEAD" ->
  backends_return self results ->
  (forall w', lookup_functor _accept_to_functor (negotiated req) w' = (Returned functor, w')) ->
  process_request self req w =
  match functor self results (_are_results_healthy results) (after_checks self w) with
  | (Returned (body, content_type), w') =>
      (Returned (Some (mkResponse
                         (HEALTHY_TO_STATUS_CODES (_are_results_healthy results))
                         body content_type)), w')
  | (Raised e, w') => (Raised e, w')
  end.
Proof.
  intros Hp Hm Hb Hl. rewrite process_request_at_path by exact Hp.
  unfold bind at 1. rewrite (collect_results_returns _ _ _ Hb).
  apply String.eqb_neq in Hm. rewrite Hm.
  fold (after_checks self w). cbv zeta. unfold bind. rewrite Hl.
  unfold ret.
  destruct (functor self results (_are_results_healthy results) (after_checks self w))
    as [[[b c]|e] w']; reflexivity.
Qed.

(** ** The renderers *)

Lemma make_text_response_eq (self : Healthcheck) (results : list CheckResult)
  (healthy : bool) (w : World) :
  _make_text_response self results healthy w =
  (Returned (strip (LF ++ cat (map (append LF) (map reason results))), "text/plain"), w).
Proof.
  unfold _make_text_response, bind, lift.
  rewrite <- (map_map reason VStr), plain_render. reflexivity.
Qed.

Lemma strip_plain (reasons : list string) :
  strip (LF ++ cat (map (append LF) reasons)) = strip (join LF reasons).
Proof.
  destruct reasons as [|r rs]; [reflexivity|].
  rewrite join_cons. cbn [map cat]. unfold strip. norm_str. reflexivity.
Qed.

(** ** The verdict *)

Lemma are_results_healthy_forallb (results : list CheckResult) :
  _are_results_healthy results = forallb available results.
Proof.
  induction results as [|r rs IH]; [reflexivity|].
  cbn. rewrite IH. destruct (available r); reflexivity.
Qed.

(** C1: the verdict is the logical AND of [available] over the collected
    results: it is healthy exactly when every result is available, one
    unavailable result makes it unhealthy wherever it stands, reordering
    the results does not change it, and with no result it is healthy. *)
Theorem are_results_healthy_is_and (results : list CheckResult) :
  _are_results_healthy results = fold_right andb true (map available results)
  /\ (_are_results_healthy results = true <->
      forall r, In r results -> available r = true)
  /\ (forall r, In r results -> available r = false ->
      _are_results_healthy results = false)
  /\ (forall results', Permutation results results' ->
      _are_results_healthy results' = _are_results_healthy results)
  /\ _are_results_healthy [] = true.
Proof.
  assert (Hall : _are_results_healthy results = true <->
                 forall r, In r results -> available r = true).
  { rewrite are_results_healthy_forallb. apply forallb_forall. }
  split; [|split; [exact Hall|split; [|split; [|reflexivity]]]].
  - clear Hall. induction results as [|r rs IH]; [reflexivity|].
    cbn. rewrite IH. destruct (available r); reflexivity.
  - intros r Hin Hr.
    destruct (_are_results_healthy results) eqn:E; [|reflexivity].
    rewrite (proj1 Hall eq_refl r Hin) in Hr. discriminate.
  - intros results' Hperm. rewrite !are_results_healthy_forallb.
    clear Hall.
    induction Hperm as [|x l l' _ IH|x y l|l l' l'' _ IH1 _ IH2]; cbn.
    + reflexivity.
    + now rewrite IH.
    + destruct (available x), (available y); reflexivity.
    + congruence.
Qed.

(** ** Requests to another path *)

(** C3: a request whose path differs from the configured path gets no
    response (None), and the world is left as it was: no backend is
    invoked. *)
Theorem other_path_passes_through (self : Healthcheck) (req : Request) (w : World) :
  path req <> _path self ->
  process_request self req w = (Returned None, w)
  /\ invoked (snd (process_request self req w)) = invoked w.
Proof.
  intros H. rewrite (process_request_other _ _ _ H). split; reflexivity.
Qed.

Lemma other_path_passes_through_witness :
  process_request
    (mkHealthcheck "/healthcheck" false [returning "disable_by_file" false "DISABLED BY FILE"])
    (mkRequest "/v2/servers" "GET" (accepting None)) sample_world
  = (Returned None, sample_world)
  /\ invoked (snd (process_request
       (mkHealthcheck "/healthcheck" false [returning "disable_by_file" false "DISABLED BY FILE"])
       (mkRequest "/v2/servers" "GET" (accepting None)) sample_world))
     = invoked sample_world.
Proof.
  apply (other_path_passes_through
           (mkHealthcheck "/healthcheck" false
                          [returning "disable_by_file" false "DISABLED BY FILE"])
           (mkRequest "/v2/servers" "GET" (accepting None)) sample_world).
  cbn. discriminate.
Defined.

(** ** Status codes *)

Lemma backends_return_app_inv (self : Healthcheck) (pre post : list Extension)
  (ext : Extension) (results : list CheckResult) :
  _backends self = (pre ++ ext :: post)%list ->
  backends_return self results ->
  exists r, healthcheck_outcome (obj ext) = Returned r.
Proof.
  unfold backends_return. intros -> H.
  apply Forall2_app_inv_l in H. destruct H as (l1 & l2 & _ & H & _).
  inversion H; subst. eauto.
Qed.

(** What [process_request] does, by outcome.  A response carries 204
    (healthy) or 503 (unhealthy) for HEAD and 200 (healthy) or 503
    (unhealthy) for any other method, the verdict being that of the results
    of the backends; so its status is one of 200, 204 and 503.  There is no
    response only for another path, or when a backend or, for a method
    other than HEAD, the renderer raises. *)
Lemma process_request_outcomes (self : Healthcheck) (req : Request) (w : World) :
  match process_request self req w with
  | (Returned (Some resp), _) =>
      path req = _path self /\
      (exists results,
          backends_return self results /\
          status resp =
            match String.eqb (method req) "HEAD", _are_results_healthy results with
            | true, true => 204
            | true, false => 503
            | false, true => 200
            | false, false => 503
            end) /\
      (status resp = 200 \/ status resp = 204 \/ status resp = 503)
  | (Returned None, _) => path req <> _path self
  | (Raised e, _) =>
      path req = _path self /\
      ((exists results, backends_return self results) -> method req <> "HEAD")
  end.
Proof.
  destruct (String.eqb (path req) (_path self)) eqn:Hp.
  2:{ apply String.eqb_neq in Hp. rewrite (process_request_other _ _ _ Hp). exact Hp. }
  apply String.eqb_eq in Hp. rewrite (process_request_at_path _ _ _ Hp).
  unfold bind at 1.
  pose proof (collect_results_inv (_backends self) w) as Hc.
  destruct (collect_results (_backends self) w) as [[results|e] w1].
  2:{ split; [exact Hp|]. intros [rs Hrs].
      destruct Hc as (pre & ext & post & rs' & Heq & _ & He).
      destruct (backends_return_app_inv _ _ _ _ _ Heq Hrs) as [r Hr]. congruence. }
  cbv zeta. destruct (String.eqb (method req) "HEAD") eqn:Hm.
  - cbn. split; [exact Hp|]. split.
    + exists results. split; [exact Hc|].
      destruct (_are_results_healthy results); reflexivity.
    + destruct (_are_results_healthy results); cbn; auto.
  - unfold bind at 1. unfold bind at 1.
    destruct (lookup_functor _accept_to_functor (negotiated req) w1) as [[f|e] w2].
    2:{ split; [exact Hp|]. intros _. now apply String.eqb_neq. }
    unfold ret at 1. cbv beta iota. unfold bind at 1.
    destruct (f self results (_are_results_healthy results) w2) as [[[b c]|e] w3].
    2:{ split; [exact Hp|]. intros _. now apply String.eqb_neq. }
    cbn. split; [exact Hp|]. split.
    + exists results. split; [exact Hc|].
      destruct (_are_results_healthy results); reflexivity.
    + destruct (_are_results_healthy results); cbn; auto.
Qed.

(** ** HEAD requests *)

(** C7: a HEAD request to the configured path is answered with an empty
    body and content type text/plain, whatever its Accept header and the
    detail mode; the status alone, 204 or 503, carries the verdict. *)
Theorem head_response_is_empty (self : Healthcheck) (req : Request) (w : World)
  (results : list CheckResult) :
  path req = _path self ->
  method req = "HEAD" ->
  backends_return self results ->
  process_request self req w =
  (Returned (Some (mkResponse (if _are_results_healthy results then 204 else 503)
                              "" "text/plain")),
   after_checks self w).
Proof.
  intros Hp Hm Hb. rewrite (process_request_head _ _ _ _ Hp Hm Hb).
  destruct (_are_results_healthy results); reflexivity.
Qed.

Lemma head_response_is_empty_witness :
  process_request
    (mkHealthcheck "/healthcheck" true [returning "disable_by_file" false "DISABLED BY FILE"])
    (mkRequest "/healthcheck" "HEAD" (accepting (Some "application/json")))
    sample_world
  = (Returned (Some (mkResponse 503 "" "text/plain")),
     mkWorld (Returned "node-1") ["disable_by_file"]).
Proof.
  apply (head_response_is_empty
           (mkHealthcheck "/healthcheck" true
                          [returning "disable_by_file" false "DISABLED BY FILE"])
           (mkRequest "/healthcheck" "HEAD" (accepting (Some "application/json")))
           sample_world
           [mkResult HealthcheckResult false "DISABLED BY FILE"]).
  - reflexivity.
  - reflexivity.
  - repeat constructor.
Defined.

(** ** A backend that raises *)

(** C9: when a backend raises during a request to the configured path, the
    backends before it having returned, the handler raises that same
    exception: there is no response, no result stands in for the failure,
    and the backends after it are not invoked. *)
Theorem backend_exception_propagates (self : Healthcheck) (req : Request) (w : World)
  (pre post : list Extension) (ext : Extension) (results : list CheckResult)
  (e : Exn) :
  path req = _path self ->
  _backends self = (pre ++ ext :: post)%list ->
  Forall2 (fun x result => healthcheck_outcome (obj x) = Returned result) pre results ->
  healthcheck_outcome (obj ext) = Raised e ->
  process_request self req w =
  (Raised e,
   mkWorld (gethostname_outcome w) (invoked w ++ map name pre ++ [name ext])%list).
Proof.
  intros Hp Hb Hpre He. rewrite (process_request_at_path _ _ _ Hp).
  unfold bind at 1. rewrite Hb, (collect_results_raises _ _ _ _ _ _ Hpre He).
  reflexivity.
Qed.

Lemma backend_exception_propagates_witness :
  process_request
    (mkHealthcheck "/healthcheck" false
       [ returning "first" true "OK";
         raising "second" (mkExn "IOError" "disk unreadable");
         returning "third" false "DISABLED BY FILE" ])
    (mkRequest "/healthcheck" "GET" (accepting (Some "text/plain")))
    sample_world
  = (Raised (mkExn "IOError" "disk unreadable"),
     mkWorld (Returned "node-1") ["first"; "second"]).
Proof.
  apply (backend_exception_propagates
           (mkHealthcheck "/healthcheck" false
              [ returning "first" true "OK";
                raising "second" (mkExn "IOError" "disk unreadable");
                returning "third" false "DISABLED BY FILE" ])
           (mkRequest "/healthcheck" "GET" (accepting (Some "text/plain")))
           sample_world
           [returning "first" true "OK"]
           [returning "third" false "DISABLED BY FILE"]
           (raising "second" (mkExn "IOError" "disk unreadable"))
           [mkResult HealthcheckResult true "OK"]
           (mkExn "IOError" "disk unreadable")).
  - reflexivity.
  - reflexivity.
  - repeat constructor.
  - reflexivity.
Defined.

(** ** text/plain *)

Lemma process_request_text (self : Healthcheck) (req : Request) (w : World)
  (results : list CheckResult) :
  path req = _path self ->
  method req <> "HEAD" ->
  negotiated req = Some "text/plain" ->
  backends_return self results ->
  process_request self req w =
  (Returned (Some (mkResponse
                     (HEALTHY_TO_STATUS_CODES (_are_results_healthy results))
                     (strip (join LF (map reason results))) "text/plain")),
   after_checks self w).
Proof.
  intros Hp Hm Hn Hb.
  rewrite (process_request_rendered _ _ _ _ _make_text_response Hp Hm Hb).
  - rewrite make_text_response_eq, strip_plain. reflexivity.
  - intros w'. rewrite Hn. reflexivity.
Qed.

(** C4: a request, not a HEAD request, whose Accept header matches none of
    the three media types is handled exactly as the same request with a
    header that selects text/plain; when the backends return, that is a
    text/plain response with the status of the verdict, never an error of
    the negotiation. *)
Theorem no_match_falls_back_to_text_plain (self : Healthcheck) (req : Request)
  (plain : Accept) (w : World) :
  path req = _path self ->
  method req <> "HEAD" ->
  best_match (accept req) ["text/plain"; "text/html"; "application/json"] = None ->
  best_match plain ["text/plain"; "text/html"; "application/json"] = Some "text/plain" ->
  process_request self req w
  = process_request self (mkRequest (path req) (method req) plain) w
  /\ forall results,
       backends_return self results ->
       process_request self req w =
       (Returned (Some (mkResponse
                          (if _are_results_healthy results then 200 else 503)
                          (strip (join LF (map reason results))) "text/plain")),
        after_checks self w).
Proof.
  intros Hp Hm Hnone Hplain.
  assert (Hn : negotiated req = Some "text/plain").
  { unfold negotiated. change _accept_order
      with ["text/plain"; "text/html"; "application/json"].
    rewrite Hnone. reflexivity. }
  split.
  - rewrite !process_request_at_path by (cbn; exact Hp).
    cbn [method]. rewrite Hn. unfold negotiated. cbn [accept].
    change _accept_order with ["text/plain"; "text/html"; "application/json"].
    rewrite Hplain. reflexivity.
  - intros results Hb. rewrite (process_request_text _ _ _ _ Hp Hm Hn Hb).
    destruct (_are_results_healthy results); reflexivity.
Qed.

Lemma no_match_falls_back_to_text_plain_witness :
  process_request
    (mkHealthcheck "/healthcheck" true [returning "disable_by_file" false "DISABLED BY FILE"])
    (mkRequest "/healthcheck" "GET" (accepting None)) sample_world
  = process_request
      (mkHealthcheck "/healthcheck" true [returning "disable_by_file" false "DISABLED BY FILE"])
      (mkRequest "/healthcheck" "GET" (accepting (Some "text/plain"))) sample_world
  /\ forall results,
       backends_return
         (mkHealthcheck "/healthcheck" true
                        [returning "disable_by_file" false "DISABLED BY FILE"]) results ->
       process_request
         (mkHealthcheck "/healthcheck" true
                        [returning "disable_by_file" false "DISABLED BY FILE"])
         (mkRequest "/healthcheck" "GET" (accepting None)) sample_world
       = (Returned (Some (mkResponse
                            (if _are_results_healthy results then 200 else 503)
                            (strip (join LF (map reason results))) "text/plain")),
          after_checks
            (mkHealthcheck "/healthcheck" true
                           [returning "disable_by_file" false "DISABLED BY FILE"])
            sample_world).
Proof.
  apply (no_match_falls_back_to_text_plain
           (mkHealthcheck "/healthcheck" true
                          [returning "disable_by_file" false "DISABLED BY FILE"])
           (mkRequest "/healthcheck" "GET" (accepting None))
           (accepting (Some "text/plain")) sample_world).
  - reflexivity.
  - cbn. discriminate.
  - reflexivity.
  - reflexivity.
Defined.

(** C6, as the code has it: a text/plain response carries the reasons of
    all collected results, in invocation order, joined by newlines (an
    empty reason leaves its line empty), the whole trimmed at both ends;
    for an available result with an empty reason followed by an unavailable
    one with reason disk full, the body is disk full and the status 503. *)
Theorem text_body_joins_all_reasons (self : Healthcheck) (req : Request) (w : World)
  (results : list CheckResult) :
  path req = _path self ->
  method req <> "HEAD" ->
  negotiated req = Some "text/plain" ->
  backends_return self results ->
  process_request self req w =
  (Returned (Some (mkResponse
                     (if _are_results_healthy results then 200 else 503)
                     (strip (join LF (map reason results))) "text/plain")),
   after_checks self w)
  /\ forall c1 c2,
       results = [mkResult c1 true ""; mkResult c2 false "disk full"] ->
       process_request self req w =
       (Returned (Some (mkResponse 503 "disk full" "text/plain")), after_checks self w).
Proof.
  intros Hp Hm Hn Hb. rewrite (process_request_text _ _ _ _ Hp Hm Hn Hb). split.
  - destruct (_are_results_healthy results); reflexivity.
  - intros c1 c2 ->. reflexivity.
Qed.

Lemma text_body_joins_all_reasons_witness :
  process_request
    (mkHealthcheck "/healthcheck" false
                   [returning "first" true ""; returning "second" false "disk full"])
    (mkRequest "/healthcheck" "GET" (accepting None)) sample_world
  = (Returned (Some (mkResponse 503 "disk full" "text/plain")),
     mkWorld (Returned "node-1") ["first"; "second"]).
Proof.
  refine (proj2 (text_body_joins_all_reasons
           (mkHealthcheck "/healthcheck" false
                          [returning "first" true ""; returning "second" false "disk full"])
           (mkRequest "/healthcheck" "GET" (accepting None)) sample_world
           [mkResult HealthcheckResult true ""; mkResult HealthcheckResult false "disk full"]
           _ _ _ _) HealthcheckResult HealthcheckResult eq_refl).
  - reflexivity.
  - cbn. discriminate.
  - reflexivity.
  - repeat constructor.
Defined.

(** C6 as stated fails: with the reasons a, empty, b in that order the
    body keeps an empty line between a and b, while the reasons that are
    not empty joined by newlines have none. *)
Lemma text_body_blank_line_counterexample :
  process_request
    (mkHealthcheck "/healthcheck" false
       [returning "first" false "a"; returning "second" true "";
        returning "third" false "b"])
    (mkRequest "/healthcheck" "GET" (accepting (Some "text/plain"))) sample_world
  = (Returned (Some (mkResponse 503 ("a" ++ LF ++ LF ++ "b") "text/plain")),
     mkWorld (Returned "node-1") ["first"; "second"; "third"])
  /\ spec_text_body
       [mkResult HealthcheckResult false "a"; mkResult HealthcheckResult true "";
        mkResult HealthcheckResult false "b"]
     = "a" ++ LF ++ "b"
  /\ "a" ++ LF ++ LF ++ "b" <> "a" ++ LF ++ "b".
Proof.
  split; [vm_compute; reflexivity|]. split; [vm_compute; reflexivity|].
  cbn. discriminate.
Qed.

(** C10: when every collected result has an empty reason, in particular
    when there is no backend at all, the text/plain body is the empty
    string. *)
Theorem text_body_empty_without_reasons (self : Healthcheck) (req : Request)
  (w : World) (results : list CheckResult) :
  path req = _path self ->
  method req <> "HEAD" ->
  negotiated req = Some "text/plain" ->
  backends_return self results ->
  (forall r, In r results -> reason r = "") ->
  process_request self req w =
  (Returned (Some (mkResponse (if _are_results_healthy results then 200 else 503)
                              "" "text/plain")),
   after_checks self w)
  /\ (_backends self = [] ->
      process_request self req w =
      (Returned (Some (mkResponse 200 "" "text/plain")), w)).
Proof.
  intros Hp Hm Hn Hb Hr.
  assert (Hbody : strip (join LF (map reason results)) = "").
  { rewrite <- strip_plain. unfold strip.
    rewrite lstrip_spaces; [reflexivity|].
    clear Hb. cbn [append LF list_ascii_of_string].
    intros c [<-|Hc]; [reflexivity|].
    induction results as [|r rs IH]; [destruct Hc|].
    cbn [map cat] in Hc. rewrite (Hr r (or_introl eq_refl)) in Hc.
    cbn in Hc. destruct Hc as [<-|Hc]; [reflexivity|].
    apply IH; [|exact Hc]. intros r' Hr'. apply Hr. right. exact Hr'. }
  rewrite (process_request_text _ _ _ _ Hp Hm Hn Hb), Hbody. split.
  - destruct (_are_results_healthy results); reflexivity.
  - intros Hnil. unfold backends_return in Hb. rewrite Hnil in Hb.
    inversion Hb; subst. unfold after_checks. rewrite Hnil. cbn.
    rewrite app_nil_r. destruct w; reflexivity.
Qed.

Lemma text_body_empty_without_reasons_witness :
  process_request (mkHealthcheck "/healthcheck" false [])
                  (mkRequest "/healthcheck" "GET" (accepting None)) sample_world
  = (Returned (Some (mkResponse 200 "" "text/plain")), sample_world).
Proof.
  refine (proj2 (text_body_empty_without_reasons
           (mkHealthcheck "/healthcheck" false [])
           (mkRequest "/healthcheck" "GET" (accepting None)) sample_world []
           _ _ _ _ _) eq_refl).
  - reflexivity.
  - cbn. discriminate.
  - reflexivity.
  - constructor.
  - intros r [].
Defined.

(** ** application/json *)

Lemma make_json_response_eq (self : Healthcheck) (results : list CheckResult)
  (healthy : bool) (w : World) :
  _make_json_response self results healthy w =
  (Returned
     (_pretty_json_dumps
        (VDict (if _show_details self
                then [ ("detailed", VBool true);
                       ("reasons", VList (map (json_item true) results)) ]
                else [ ("reasons", VList (map (json_item false) results));
                       ("detailed", VBool false) ])),
      "application/json"), w).
Proof.
  unfold _make_json_response, ret. destruct (_show_details self); [|reflexivity].
  rewrite (fold_left_append translate). reflexivity.
Qed.

(** C5, as the code has it: a JSON response is the dump of a dict with the
    two keys detailed and reasons; detailed is the configured flag; reasons
    holds one item per backend, in invocation order: the reason string
    (possibly empty) without detail mode, and in detail mode an object of
    the reason and, as class, the short type name of the result object the
    backend returned. *)
Theorem json_body_document (self : Healthcheck) (req : Request) (w : World)
  (results : list CheckResult) :
  path req = _path self ->
  method req <> "HEAD" ->
  negotiated req = Some "application/json" ->
  backends_return self results ->
  exists doc,
    process_request self req w =
    (Returned (Some (mkResponse (if _are_results_healthy results then 200 else 503)
                                (_pretty_json_dumps (VDict doc)) "application/json")),
     after_checks self w)
    /\ dict_get doc "detailed" = Some (VBool (_show_details self))
    /\ dict_get doc "reasons" =
       Some (VList (map (fun result =>
                           if _show_details self
                           then VDict [ ("reason", VStr (reason result));
                                        ("class", VStr (cls_name (result_type result))) ]
                           else VStr (reason result)) results))
    /\ (forall k v, In (k, v) doc -> k = "detailed" \/ k = "reasons")
    /\ List.length results = List.length (_backends self).
Proof.
  intros Hp Hm Hn Hb.
  rewrite (process_request_rendered _ _ _ _ _make_json_response Hp Hm Hb)
    by (intros w'; rewrite Hn; reflexivity).
  rewrite make_json_response_eq.
  assert (Hlen : List.length results = List.length (_backends self)).
  { symmetry. exact (Forall2_length Hb). }
  destruct (_show_details self).
  - eexists. split; [|split; [|split; [|split; [|exact Hlen]]]].
    + destruct (_are_results_healthy results); reflexivity.
    + reflexivity.
    + reflexivity.
    + intros k v [H|[H|[]]]; inversion H; auto.
  - eexists. split; [|split; [|split; [|split; [|exact Hlen]]]].
    + destruct (_are_results_healthy results); reflexivity.
    + reflexivity.
    + reflexivity.
    + intros k v [H|[H|[]]]; inversion H; auto.
Qed.

Lemma json_body_document_witness :
  exists doc,
    process_request
      (mkHealthcheck "/healthcheck" true
                     [returning "disable_by_file" false "DISABLED BY FILE"])
      (mkRequest "/healthcheck" "GET" (accepting (Some "application/json")))
      sample_world
    = (Returned (Some (mkResponse 503 (_pretty_json_dumps (VDict doc))
                                  "application/json")),
       mkWorld (Returned "node-1") ["disable_by_file"])
    /\ dict_get doc "detailed" = Some (VBool true)
    /\ dict_get doc "reasons" =
       Some (VList [VDict [ ("reason", VStr "DISABLED BY FILE");
                            ("class", VStr "HealthcheckResult") ]])
    /\ (forall k v, In (k, v) doc -> k = "detailed" \/ k = "reasons")
    /\ 1 = 1.
Proof.
  apply (json_body_document
           (mkHealthcheck "/healthcheck" true
                          [returning "disable_by_file" false "DISABLED BY FILE"])
           (mkRequest "/healthcheck" "GET" (accepting (Some "application/json")))
           sample_world
           [mkResult HealthcheckResult false "DISABLED BY FILE"]).
  - reflexivity.
  - cbn. discriminate.
  - reflexivity.
  - repeat constructor.
Defined.

(** C5 as stated fails on the class: the disable-by-file backend, of type
    DisableByFileHealthcheck, returns a result of type HealthcheckResult,
    and the JSON body names the type of the result, not that of the
    backend. *)
Lemma json_class_counterexample :
  process_request
    (mkHealthcheck "/healthcheck" true
                   [returning "disable_by_file" false "DISABLED BY FILE"])
    (mkRequest "/healthcheck" "GET" (accepting (Some "application/json")))
    sample_world
  = (Returned (Some (mkResponse 503
       (_pretty_json_dumps
          (VDict [ ("detailed", VBool true);
                   ("reasons",
                    VList [VDict [ ("reason", VStr "DISABLED BY FILE");
                                   ("class", VStr "HealthcheckResult") ]]) ]))
       "application/json")),
     mkWorld (Returned "node-1") ["disable_by_file"])
  /\ spec_json_reasons
       (mkHealthcheck "/healthcheck" true
                      [returning "disable_by_file" false "DISABLED BY FILE"])
       [mkResult HealthcheckResult false "DISABLED BY FILE"]
     = VList [VDict [ ("reason", VStr "DISABLED BY FILE");
                      ("class", VStr "DisableByFileHealthcheck") ]]
  /\ _pretty_json_dumps
       (VDict [ ("detailed", VBool true);
                ("reasons",
                 VList [VDict [ ("reason", VStr "DISABLED BY FILE");
                                ("class", VStr "HealthcheckResult") ]]) ])
     <> _pretty_json_dumps
          (VDict [ ("detailed", VBool true);
                   ("reasons",
                    spec_json_reasons
                      (mkHealthcheck "/healthcheck" true
                                     [returning "disable_by_file" false "DISABLED BY FILE"])
                      [mkResult HealthcheckResult false "DISABLED BY FILE"]) ]).
Proof.
  split; [vm_compute; reflexivity|]. split; [vm_compute; reflexivity|].
  apply String.eqb_neq. vm_compute. reflexivity.
Qed.

(** ** text/html *)

Lemma lt_free_app (a b : string) : lt_free (a ++ b) = lt_free a && lt_free b.
Proof.
  induction a as [|c a IH]; cbn; [reflexivity|]. rewrite IH. now rewrite andb_assoc.
Qed.

(** Escaped text opens no tag. *)
Lemma escape_lt_free (s : string) : lt_free (Jinja2.escape s) = true.
Proof.
  induction s as [|c s IH]; [reflexivity|].
  cbn [Jinja2.escape]. rewrite lt_free_app, IH, andb_true_r.
  destruct c as [[] [] [] [] [] [] [] []]; reflexivity.
Qed.

Lemma str_of_nat_lt_free (n : nat) : lt_free (str_of_nat n) = true.
Proof.
  unfold str_of_nat. induction (Nat.to_uint n); cbn; auto.
Qed.

Lemma count_skip (p a s : string) :
  lt_free a = true ->
  count_sub (String "<" p) (a ++ s) = count_sub (String "<" p) s.
Proof.
  induction a as [|c a IH]; [reflexivity|].
  cbn [lt_free]. intros H. apply andb_true_iff in H. destruct H as [Hc Ha].
  cbn [append count_sub startswith]. rewrite IH by exact Ha.
  rewrite Ascii.eqb_sym. apply negb_true_iff in Hc. rewrite Hc. reflexivity.
Qed.

Ltac count_steps :=
  repeat (cbn [count_sub startswith Ascii.eqb Bool.eqb andb Nat.add append DQ LF];
          rewrite ?count_skip by (apply escape_lt_free || apply str_of_nat_lt_free)).




Lemma strip_html (d : bool) (host : option string) (results : list CheckResult) :
  strip (LF ++ html_document d host results) = html_document d host results.
Proof.
  unfold strip.
  replace (lstrip (LF ++ html_document d host results))
    with (html_document d host results) by reflexivity.
  unfold html_document. do 14 apply kept_app. split; [reflexivity|discriminate].
Qed.

Lemma make_html_response_eq (self : Healthcheck) (results : list CheckResult)
  (healthy : bool) (w : World) :
  _make_html_response self results healthy w =
  match gethostname_outcome w with
  | Returned h =>
      (Returned (html_document (_show_details self) (Some h) results, "text/html"), w)
  | Raised e =>
      if is_socket_error e
      then (Returned (html_document (_show_details self) None results, "text/html"), w)
      else (Raised e, w)
  end.
Proof.
  unfold _make_html_response. rewrite (fold_left_append translate). cbn [app].
  unfold bind at 1. unfold try_except, bind at 1, socket_gethostname, ret at 1 2.
  destruct (gethostname_outcome w) as [h|e].
  - unfold bind, lift. rewrite (html_render healthy (Some h)), strip_html. reflexivity.
  - destruct (is_socket_error e); [|reflexivity].
    unfold bind, lift. rewrite (html_render healthy None), strip_html. reflexivity.
Qed.



(** The same request in detail mode, with a host name and without. *)
Example html_response_sample :
  process_request
    (mkHealthcheck "/healthcheck" true
       [returning "first" true ""; returning "second" false "disk <full>"])
    (mkRequest "/healthcheck" "GET" (accepting (Some "text/html")))
    sample_world
  = (Returned (Some (mkResponse 503
("<HTML>
<HEAD><TITLE>Healthcheck Status</TITLE></HEAD>
<BODY>
<H1>Server status for node-1</H1>
<H2>Result of 2 checks:</H2>
<TABLE bgcolor=" ++ DQ ++ "#ffffff" ++ DQ ++ " border=" ++ DQ ++ "1" ++ DQ ++ ">
<TBODY>
<TR>
<TD>HealthcheckResult</TD>
    <TD>disk &lt;full&gt;</TD>
</TR>
</TBODY>
</TABLE>
</BODY>
</HTML>") "text/html")),
     mkWorld (Returned "node-1") ["first"; "second"]).
Proof. vm_compute. reflexivity. Qed.

Example html_response_sample_no_hostname :
  process_request
    (mkHealthcheck "/healthcheck" true
       [returning "first" true ""; returning "second" false "disk <full>"])
    (mkRequest "/healthcheck" "GET" (accepting (Some "text/html")))
    (mkWorld (Raised (mkExn socket_error "lookup failed")) [])
  = (Returned (Some (mkResponse 503
("<HTML>
<HEAD><TITLE>Healthcheck Status</TITLE></HEAD>
<BODY>

<H2>Result of 2 checks:</H2>
<TABLE bgcolor=" ++ DQ ++ "#ffffff" ++ DQ ++ " border=" ++ DQ ++ "1" ++ DQ ++ ">
<TBODY>
<TR>
<TD>HealthcheckResult</TD>
    <TD>disk &lt;full&gt;</TD>
</TR>
</TBODY>
</TABLE>
</BODY>
</HTML>") "text/html")),
     mkWorld (Raised (mkExn socket_error "lookup failed")) ["first"; "second"]).
Proof. vm_compute. reflexivity. Qed.

(** A host name lookup that fails otherwise is not handled. *)
Example html_response_sample_other_error :
  process_request
    (mkHealthcheck "/healthcheck" true [returning "first" true ""])
    (mkRequest "/healthcheck" "GET" (accepting (Some "text/html")))
    (mkWorld (Raised (mkExn "MemoryError" "")) [])
  = (Raised (mkExn "MemoryError" ""),
     mkWorld (Raised (mkExn "MemoryError" "")) ["first"]).
Proof. vm_compute. reflexivity. Qed.

(** A media type outside the table cannot come out of [best_match]; if it
    did, the lookup of the renderer would raise. *)
Example unknown_media_type_sample :
  process_request
    (mkHealthcheck "/healthcheck" false [returning "first" true ""])
    (mkRequest "/healthcheck" "GET" (accepting (Some "application/xml")))
    sample_world
  = (Raised (KeyError "application/xml"), mkWorld (Returned "node-1") ["first"]).
Proof. vm_compute. reflexivity. Qed.

(** ** When a response is certain *)

(** X15: with a header object that keeps to the contract of [best_match]
    (an offer or None), backends that return, and a host name lookup that
    returns or raises socket.error, a request to the configured path always
    gets a response. *)
Lemma process_request_responds (self : Healthcheck) (req : Request) (w : World)
  (results : list CheckResult) :
  path req = _path self ->
  backends_return self results ->
  (forall t, best_match (accept req) _accept_order = Some t -> In t _accept_order) ->
  (forall e, gethostname_outcome w = Raised e -> is_socket_error e = true) ->
  exists resp,
    process_request self req w = (Returned (Some resp), after_checks self w).
Proof.
  intros Hp Hb Hoffer Hhost.
  destruct (String.eqb (method req) "HEAD") eqn:Hm.
  { apply String.eqb_eq in Hm. rewrite (process_request_head _ _ _ _ Hp Hm Hb). eauto. }
  apply String.eqb_neq in Hm.
  assert (Hn : negotiated req = Some "text/plain"
               \/ negotiated req = Some "text/html"
               \/ negotiated req = Some "application/json").
  { unfold negotiated.
    destruct (best_match (accept req) _accept_order) as [t|] eqn:Hbm; [|auto].
    destruct (Hoffer t eq_refl) as [<-|[<-|[<-|[]]]]; auto. }
  destruct Hn as [Hn|[Hn|Hn]].
  - rewrite (process_request_text _ _ _ _ Hp Hm Hn Hb). eauto.
  - rewrite (process_request_rendered _ _ _ _ _make_html_response Hp Hm Hb)
      by (intros w'; rewrite Hn; reflexivity).
    rewrite make_html_response_eq. cbn [gethostname_outcome after_checks].
    destruct (gethostname_outcome w) as [h|e] eqn:Hg; [eauto|].
    rewrite (Hhost e eq_refl). eauto.
  - rewrite (process_request_rendered _ _ _ _ _make_json_response Hp Hm Hb)
      by (intros w'; rewrite Hn; reflexivity).
    rewrite make_json_response_eq. eauto.
Qed.

(** The four rows of the status table, on one backend. *)
Example status_samples :
  let check healthy how :=
    option_map status
      match fst (process_request
                   (mkHealthcheck "/healthcheck" false [returning "only" healthy "note"])
                   (mkRequest "/healthcheck" how (accepting None)) sample_world) with
      | Returned r => r
      | Raised _ => None
      end in
  check true "HEAD" = Some 204 /\ check false "HEAD" = Some 503
  /\ check true "GET" = Some 200 /\ check false "GET" = Some 503
  /\ check true "POST" = Some 200 /\ check false "DELETE" = Some 503.
Proof. vm_compute. repeat split. Qed.

(** * Further properties *)

(** ** The handler, case by case *)

(** The renderer found for a media type: one of the three, or KeyError. *)
Lemma lookup_functor_cases (t : option string) (w : World) :
  (t = Some "text/plain" /\
   lookup_functor _accept_to_functor t w = (Returned _make_text_response, w))
  \/ (t = Some "text/html" /\
      lookup_functor _accept_to_functor t w = (Returned _make_html_response, w))
  \/ (t = Some "application/json" /\
      lookup_functor _accept_to_functor t w = (Returned _make_json_response, w))
  \/ (t <> Some "text/plain" /\ t <> Some "text/html" /\ t <> Some "application/json" /\
      lookup_functor _accept_to_functor t w
      = (Raised (KeyError (match t with Some k => k | None => "None" end)), w)).
Proof.
  destruct t as [t|].
  2:{ right; right; right. repeat split; try discriminate. }
  cbn [lookup_functor _accept_to_functor].
  destruct (String.eqb "text/plain" t) eqn:E1.
  { apply String.eqb_eq in E1. subst. left. split; reflexivity. }
  destruct (String.eqb "text/html" t) eqn:E2.
  { apply String.eqb_eq in E2. subst. right; left. split; reflexivity. }
  destruct (String.eqb "application/json" t) eqn:E3.
  { apply String.eqb_eq in E3. subst. right; right; left. split; reflexivity. }
  apply String.eqb_neq in E1, E2, E3.
  right; right; right. repeat split; congruence.
Qed.

Lemma encode_list (level : nat) (l : list Value) :
  Json.encode level (VList l)
  = Json.bracket "[" "]" level (map (Json.encode (S level)) l).
Proof. reflexivity. Qed.

Lemma encode_item (detailed : bool) (result : CheckResult) :
  Json.encode 2 (json_item detailed result) = json_item_text detailed result.
Proof.
  destruct detailed; [|reflexivity].
  unfold json_item_text, json_item. cbn. norm_str. reflexivity.
Qed.

(** The text [_make_json_response] returns. *)
Lemma make_json_response_text (self : Healthcheck) (results : list CheckResult)
  (healthy : bool) (w : World) :
  _make_json_response self results healthy w =
  (Returned (json_text (_show_details self) results, "application/json"), w).
Proof.
  rewrite make_json_response_eq. unfold _pretty_json_dumps, Json.dumps, json_text.
  assert (H : forall d,
             Json.encode 1 (VList (map (json_item d) results))
             = Json.bracket "[" "]" 1 (map (json_item_text d) results)).
  { intros d. rewrite encode_list, map_map. f_equal.
    apply map_ext. intros r. apply encode_item. }
  destruct (_show_details self); rewrite <- H; reflexivity.
Qed.

(** What the handler does at the configured path, case by case. *)
Lemma process_request_cases (self : Healthcheck) (req : Request) (w : World) :
  path req = _path self ->
  match collect_results (_backends self) w with
  | (Raised e, w1) => process_request self req w = (Raised e, w1)
  | (Returned results, w1) =>
      let code := HEALTHY_TO_STATUS_CODES (_are_results_healthy results) in
      if String.eqb (method req) "HEAD"
      then process_request self req w =
           (Returned (Some (mkResponse
                              (HEAD_HEALTHY_TO_STATUS_CODES (_are_results_healthy results))
                              "" "text/plain")), w1)
      else
        (negotiated req = Some "text/plain" /\
         process_request self req w =
         (Returned (Some (mkResponse code (strip (join LF (map reason results)))
                                     "text/plain")), w1))
        \/ (negotiated req = Some "text/html" /\
            process_request self req w =
            match gethostname_outcome w1 with
            | Returned h =>
                (Returned (Some (mkResponse code
                                   (html_document (_show_details self) (Some h) results)
                                   "text/html")), w1)
            | Raised e =>
                if is_socket_error e
                then (Returned (Some (mkResponse code
                                        (html_document (_show_details self) None results)
                                        "text/html")), w1)
                else (Raised e, w1)
            end)
        \/ (negotiated req = Some "application/json" /\
            process_request self req w =
            (Returned (Some (mkResponse code
                               (json_text (_show_details self) results)
                               "application/json")), w1))
        \/ (negotiated req <> Some "text/plain" /\
            negotiated req <> Some "text/html" /\
            negotiated req <> Some "application/json" /\
            process_request self req w =
            (Raised (KeyError (match negotiated req with
                               | Some k => k
                               | None => "None"
                               end)), w1))
  end.
Proof.
  intros Hp.
  assert (P := process_request_at_path self req w Hp). unfold bind at 1 in P.
  destruct (collect_results (_backends self) w) as [[results|e] w1]; [|exact P].
  cbv zeta in P |- *. destruct (String.eqb (method req) "HEAD"); [exact P|].
  rewrite P. clear P. unfold bind.
  destruct (lookup_functor_cases (negotiated req) w1)
    as [[N L]|[[N L]|[[N L]|(N1 & N2 & N3 & L)]]]; rewrite L; unfold ret.
  - left. split; [exact N|]. rewrite make_text_response_eq, strip_plain. reflexivity.
  - right; left. split; [exact N|]. rewrite make_html_response_eq.
    destruct (gethostname_outcome w1) as [h|e]; [reflexivity|].
    destruct (is_socket_error e); reflexivity.
  - right; right; left. split; [exact N|]. rewrite make_json_response_text. reflexivity.
  - right; right; right. auto.
Qed.

(** ** Status codes *)

(** C2: a request to the configured path, with backends that return, a
    negotiated media type of the table unless the method is HEAD, and a
    host name lookup that returns or raises socket.error, gets a response
    whose status is exactly 204 for HEAD when healthy, 503 for HEAD when
    unhealthy, 200 for any other method when healthy and 503 for any other
    method when unhealthy.  No response of the handler, for any middleware,
    request and world, has a status other than 200, 204 and 503. *)
Theorem process_request_status (self : Healthcheck) (req : Request) (w : World)
  (results : list CheckResult) :
  path req = _path self ->
  backends_return self results ->
  method req = "HEAD"
  \/ In (negotiated req) [Some "text/plain"; Some "text/html"; Some "application/json"] ->
  hostname_ok w ->
  (exists resp,
      process_request self req w = (Returned (Some resp), after_checks self w)
      /\ status resp =
         match String.eqb (method req) "HEAD", _are_results_healthy results with
         | true, true => 204
         | true, false => 503
         | false, true => 200
         | false, false => 503
         end)
  /\ (forall self' req' w' resp' w'',
        process_request self' req' w' = (Returned (Some resp'), w'') ->
        status resp' = 200 \/ status resp' = 204 \/ status resp' = 503).
Proof.
  intros Hp Hb Hn Hh. split.
  2:{ intros self' req' w' resp' w'' H.
      pose proof (process_request_outcomes self' req' w') as O.
      rewrite H in O. apply O. }
  pose proof (process_request_cases self req w Hp) as C.
  rewrite (collect_results_returns _ _ _ Hb) in C. fold (after_checks self w) in C.
  cbv zeta in C.
  destruct (String.eqb (method req) "HEAD") eqn:M.
  { eexists. split; [exact C|]. cbn [status].
    destruct (_are_results_healthy results); reflexivity. }
  destruct C as [[_ C]|[[_ C]|[[_ C]|(N1 & N2 & N3 & _)]]].
  - eexists. split; [exact C|]. cbn [status].
    destruct (_are_results_healthy results); reflexivity.
  - cbn [after_checks gethostname_outcome] in C.
    destruct (gethostname_outcome w) as [h|e] eqn:G.
    + eexists. split; [exact C|]. cbn [status].
      destruct (_are_results_healthy results); reflexivity.
    + rewrite (Hh e G) in C. eexists. split; [exact C|]. cbn [status].
      destruct (_are_results_healthy results); reflexivity.
  - eexists. split; [exact C|]. cbn [status].
    destruct (_are_results_healthy results); reflexivity.
  - exfalso. destruct Hn as [Hn|[Hn|[Hn|[Hn|[]]]]].
    + rewrite Hn in M. discriminate M.
    + now apply N1.
    + now apply N2.
    + now apply N3.
Qed.

Lemma process_request_status_witness :
  (exists resp,
      process_request
        (mkHealthcheck "/healthcheck" false [returning "first" true "OK"])
        (mkRequest "/healthcheck" "GET" (accepting (Some "application/json")))
        sample_world
      = (Returned (Some resp), mkWorld (Returned "node-1") ["first"])
      /\ status resp = 200)
  /\ (forall self' req' w' resp' w'',
        process_request self' req' w' = (Returned (Some resp'), w'') ->
        status resp' = 200 \/ status resp' = 204 \/ status resp' = 503).
Proof.
  apply (process_request_status
           (mkHealthcheck "/healthcheck" false [returning "first" true "OK"])
           (mkRequest "/healthcheck" "GET" (accepting (Some "application/json")))
           sample_world
           [mkResult HealthcheckResult true "OK"]).
  - reflexivity.
  - repeat constructor.
  - right. cbn. auto.
  - intros e H. discriminate H.
Defined.

(** The same at an unhealthy backend and a text/plain rendering, and at a
    HEAD request. *)
Example status_of_rendered_samples :
  option_map status
    match fst (process_request
                 (mkHealthcheck "/healthcheck" false [returning "first" false "down"])
                 (mkRequest "/healthcheck" "GET" (accepting None)) sample_world) with
    | Returned r => r
    | Raised _ => None
    end = Some 503
  /\ option_map status
       match fst (process_request
                    (mkHealthcheck "/healthcheck" false [returning "first" true "OK"])
                    (mkRequest "/healthcheck" "HEAD" (accepting None)) sample_world) with
       | Returned r => r
       | Raised _ => None
       end = Some 204.
Proof. vm_compute. split; reflexivity. Qed.

Lemma rstrip_idem (s : string) : rstrip (rstrip s) = rstrip s.
Proof.
  induction s as [|c s IH]; [reflexivity|].
  cbn [rstrip]. destruct (rstrip s) as [|a r] eqn:E.
  - destruct (is_space c) eqn:Hc; [reflexivity|]. cbn. rewrite Hc. reflexivity.
  - cbn [rstrip]. cbn [rstrip] in IH. rewrite IH. reflexivity.
Qed.

Lemma rstrip_keeps_head (c : ascii) (t : string) :
  is_space c = false -> exists t', rstrip (String c t) = String c t'.
Proof.
  intros Hc. cbn [rstrip]. destruct (rstrip t); [rewrite Hc|]; eauto.
Qed.

Lemma lstrip_head (s : string) :
  lstrip s = "" \/ exists c t, lstrip s = String c t /\ is_space c = false.
Proof.
  induction s as [|c s IH]; [left; reflexivity|].
  cbn [lstrip]. destruct (is_space c) eqn:Hc; [exact IH|]. right. eauto.
Qed.

(** Trimming twice is trimming once. *)
Lemma strip_idem (s : string) : strip (strip s) = strip s.
Proof.
  unfold strip. destruct (lstrip_head s) as [E|(c & t & E & Hc)]; rewrite E.
  - reflexivity.
  - destruct (rstrip_keeps_head c t Hc) as [t' E']. rewrite E'.
    cbn [lstrip]. rewrite Hc, <- E'. apply rstrip_idem.
Qed.

Lemma strip_html_document (d : bool) (host : option string) (results : list CheckResult) :
  strip (html_document d host results) = html_document d host results.
Proof.
  unfold strip.
  replace (lstrip (html_document d host results))
    with (html_document d host results) by reflexivity.
  unfold html_document. do 14 apply kept_app. split; [reflexivity|discriminate].
Qed.

Lemma response_at_path (self : Healthcheck) (req : Request) (w w' : World)
  (resp : Response) :
  process_request self req w = (Returned (Some resp), w') -> path req = _path self.
Proof.
  intros H. destruct (String.eqb (path req) (_path self)) eqn:E.
  - now apply String.eqb_eq.
  - apply String.eqb_neq in E. rewrite (process_request_other _ _ _ E) in H.
    discriminate H.
Qed.

(** Every way a response comes about. *)
Lemma response_cases (self : Healthcheck) (req : Request) (w w' : World)
  (resp : Response) :
  process_request self req w = (Returned (Some resp), w') ->
  exists results,
    collect_results (_backends self) w = (Returned results, w') /\
    let code := HEALTHY_TO_STATUS_CODES (_are_results_healthy results) in
    (String.eqb (method req) "HEAD" = true /\
     resp = mkResponse (HEAD_HEALTHY_TO_STATUS_CODES (_are_results_healthy results))
                       "" "text/plain")
    \/ (String.eqb (method req) "HEAD" = false /\
        negotiated req = Some "text/plain" /\
        resp = mkResponse code (strip (join LF (map reason results))) "text/plain")
    \/ (String.eqb (method req) "HEAD" = false /\
        negotiated req = Some "text/html" /\
        exists host,
          resp = mkResponse code (html_document (_show_details self) host results)
                            "text/html")
    \/ (String.eqb (method req) "HEAD" = false /\
        negotiated req = Some "application/json" /\
        resp = mkResponse code (json_text (_show_details self) results)
                          "application/json").
Proof.
  intros H. pose proof (response_at_path _ _ _ _ _ H) as Hp.
  pose proof (process_request_cases self req w Hp) as C.
  destruct (collect_results (_backends self) w) as [[results|e] w1].
  2:{ rewrite C in H. discriminate H. }
  cbv zeta in C. exists results.
  destruct (String.eqb (method req) "HEAD").
  { rewrite C in H. injection H as <- <-. split; [reflexivity|]. left. auto. }
  destruct C as [[N C]|[[N C]|[[N C]|(_ & _ & _ & C)]]]; rewrite C in H.
  - injection H as <- <-. split; [reflexivity|]. right; left. auto.
  - destruct (gethostname_outcome w1) as [h|e].
    + injection H as <- <-. split; [reflexivity|]. right; right; left. eauto.
    + destruct (is_socket_error e); [|discriminate H].
      injection H as <- <-. split; [reflexivity|]. right; right; left. eauto.
  - injection H as <- <-. split; [reflexivity|]. right; right; right. auto.
  - discriminate H.
Qed.

(** X10: the body of a response that is not JSON has no whitespace at
    either end: trimming it again changes nothing. *)
Theorem text_and_html_bodies_are_trimmed (self : Healthcheck) (req : Request)
  (w w' : World) (resp : Response) :
  process_request self req w = (Returned (Some resp), w') ->
  content_type resp <> "application/json" ->
  strip (body resp) = body resp.
Proof.
  intros H Hct. destruct (response_cases _ _ _ _ _ H) as (results & _ & C).
  cbv zeta in C.
  destruct C as [[_ ->]|[(_ & _ & ->)|[(_ & _ & host & ->)|(_ & _ & ->)]]]; cbn [body].
  - reflexivity.
  - apply strip_idem.
  - apply strip_html_document.
  - cbn in Hct. congruence.
Qed.

(** X2: the content type of a response is text/plain for HEAD and the
    negotiated media type otherwise; it is always one of the three media
    types of the table. *)
Theorem response_content_type (self : Healthcheck) (req : Request) (w w' : World)
  (resp : Response) :
  process_request self req w = (Returned (Some resp), w') ->
  (if String.eqb (method req) "HEAD"
   then content_type resp = "text/plain"
   else negotiated req = Some (content_type resp))
  /\ In (content_type resp) ["text/plain"; "text/html"; "application/json"].
Proof.
  intros H. destruct (response_cases _ _ _ _ _ H) as (results & _ & C).
  cbv zeta in C.
  destruct C as [[M ->]|[(M & N & ->)|[(M & N & host & ->)|(M & N & ->)]]];
    rewrite M; cbn; auto.
Qed.

(** X3: the handler reads a request only through its path, whether its
    method is HEAD, and, when it is not, the negotiated media type: two
    requests that agree on these are handled alike, so GET, POST and any
    other method but HEAD get the same answer. *)
Theorem same_negotiation_same_outcome (self : Healthcheck) (req1 req2 : Request)
  (w : World) :
  path req1 = path req2 ->
  String.eqb (method req1) "HEAD" = String.eqb (method req2) "HEAD" ->
  (String.eqb (method req1) "HEAD" = false -> negotiated req1 = negotiated req2) ->
  process_request self req1 w = process_request self req2 w.
Proof.
  intros Hp Hm Hn.
  destruct (String.eqb (path req1) (_path self)) eqn:E.
  - apply String.eqb_eq in E.
    rewrite (process_request_at_path self req1 w E).
    rewrite (process_request_at_path self req2 w) by congruence.
    rewrite <- Hm. destruct (String.eqb (method req1) "HEAD"); [reflexivity|].
    rewrite (Hn eq_refl). reflexivity.
  - apply String.eqb_neq in E.
    rewrite (process_request_other self req1 w E).
    rewrite (process_request_other self req2 w) by congruence.
    reflexivity.
Qed.

(** X4: detail mode changes nothing for a HEAD request or a text/plain
    rendering, whatever the backends do. *)
Theorem detail_mode_irrelevant_for_head_and_text (p : string) (d1 d2 : bool)
  (backends : list Extension) (req : Request) (w : World) :
  method req = "HEAD" \/ negotiated req = Some "text/plain" ->
  process_request (mkHealthcheck p d1 backends) req w
  = process_request (mkHealthcheck p d2 backends) req w.
Proof.
  intros H.
  destruct (String.eqb (path req) p) eqn:E.
  2:{ apply String.eqb_neq in E.
      rewrite !process_request_other by exact E. reflexivity. }
  apply String.eqb_eq in E.
  pose proof (process_request_cases (mkHealthcheck p d1 backends) req w E) as C1.
  pose proof (process_request_cases (mkHealthcheck p d2 backends) req w E) as C2.
  cbn [_backends _show_details] in C1, C2.
  destruct (collect_results backends w) as [[results|e] w1]; [|congruence].
  cbv zeta in C1, C2.
  destruct (String.eqb (method req) "HEAD") eqn:M; [congruence|].
  destruct H as [H|N]; [rewrite H in M; discriminate M|].
  destruct C1 as [[_ C1]|[[N1 _]|[[N1 _]|(N1 & _)]]]; try congruence.
  destruct C2 as [[_ C2]|[[N2 _]|[[N2 _]|(N2 & _)]]]; try congruence.
Qed.

Lemma collect_results_hostname (backends : list Extension) (h1 h2 : Outcome string)
  (log : list string) :
  exists o log',
    collect_results backends (mkWorld h1 log) = (o, mkWorld h1 log')
    /\ collect_results backends (mkWorld h2 log) = (o, mkWorld h2 log').
Proof.
  revert log. induction backends as [|ext exts IH]; intros log.
  - exists (Returned []), log. split; reflexivity.
  - cbn [collect_results]. unfold bind at 1 3. unfold healthcheck at 1 2.
    cbn [gethostname_outcome invoked].
    destruct (healthcheck_outcome (obj ext)) as [r|e]; [|eauto].
    unfold bind at 1 2.
    destruct (IH (log ++ [name ext])%list) as (o & log' & E1 & E2).
    rewrite E1, E2. destruct o as [rs|e]; [|eauto].
    exists (Returned (r :: rs)), log'. split; reflexivity.
Qed.

(** X5: what the lookup of the host name does, even a failure, has no
    effect on the result of a request unless it is rendered as HTML. *)
Theorem hostname_matters_to_html_only (self : Healthcheck) (req : Request)
  (h1 h2 : Outcome string) (log : list string) :
  method req = "HEAD" \/ negotiated req <> Some "text/html" ->
  fst (process_request self req (mkWorld h1 log))
  = fst (process_request self req (mkWorld h2 log)).
Proof.
  intros H.
  destruct (String.eqb (path req) (_path self)) eqn:E.
  2:{ apply String.eqb_neq in E.
      rewrite !process_request_other by exact E. reflexivity. }
  apply String.eqb_eq in E.
  pose proof (process_request_cases self req (mkWorld h1 log) E) as C1.
  pose proof (process_request_cases self req (mkWorld h2 log) E) as C2.
  destruct (collect_results_hostname (_backends self) h1 h2 log) as (o & log' & E1 & E2).
  rewrite E1 in C1. rewrite E2 in C2.
  destruct o as [results|e]; [|rewrite C1, C2; reflexivity].
  cbv zeta in C1, C2.
  destruct (String.eqb (method req) "HEAD") eqn:M; [rewrite C1, C2; reflexivity|].
  destruct H as [H|N]; [rewrite H in M; discriminate M|].
  destruct C1 as [[N1 C1]|[[N1 _]|[[N1 C1]|(K1 & K2 & K3 & C1)]]];
    try (exfalso; congruence);
    destruct C2 as [[N2 C2]|[[N2 _]|[[N2 C2]|(L1 & L2 & L3 & C2)]]];
    try (exfalso; congruence);
    rewrite C1, C2; reflexivity.
Qed.


Lemma unrelated_errors_not_caught (e : Exn) :
  In (exc_type e) unrelated_errors -> is_socket_error e = false.
Proof.
  intros H. unfold is_socket_error.
  assert (A : forallb (fun n => negb (existsb (String.eqb n) socket_errors))
                      unrelated_errors = true) by reflexivity.
  rewrite forallb_forall in A. apply negb_true_iff. exact (A _ H).
Qed.

(** X6: only socket.error is caught around the lookup of the host name.
    When the lookup raises an exception of a built-in type unrelated to
    socket.error and OSError, such as MemoryError, an HTML request ends
    with that exception, after all backends were invoked, and in either
    detail mode. *)
Theorem hostname_failure_propagates (self : Healthcheck) (req : Request) (w : World)
  (results : list CheckResult) (e : Exn) :
  path req = _path self ->
  method req <> "HEAD" ->
  negotiated req = Some "text/html" ->
  backends_return self results ->
  gethostname_outcome w = Raised e ->
  In (exc_type e) unrelated_errors ->
  process_request self req w = (Raised e, after_checks self w).
Proof.
  intros Hp Hm Hn Hb Hg He. apply unrelated_errors_not_caught in He.
  rewrite (process_request_rendered _ _ _ _ _make_html_response Hp Hm Hb)
    by (intros w'; rewrite Hn; reflexivity).
  rewrite make_html_response_eq. cbn [after_checks gethostname_outcome].
  rewrite Hg, He. reflexivity.
Qed.

Lemma hostname_failure_propagates_witness :
  process_request
    (mkHealthcheck "/healthcheck" false [returning "first" true "OK"])
    (mkRequest "/healthcheck" "GET" (accepting (Some "text/html")))
    (mkWorld (Raised (mkExn "MemoryError" "")) [])
  = (Raised (mkExn "MemoryError" ""),
     mkWorld (Raised (mkExn "MemoryError" "")) ["first"]).
Proof.
  apply (hostname_failure_propagates
           (mkHealthcheck "/healthcheck" false [returning "first" true "OK"])
           (mkRequest "/healthcheck" "GET" (accepting (Some "text/html")))
           (mkWorld (Raised (mkExn "MemoryError" "")) [])
           [mkResult HealthcheckResult true "OK"]
           (mkExn "MemoryError" "")).
  - reflexivity.
  - cbn. discriminate.
  - reflexivity.
  - repeat constructor.
  - reflexivity.
  - cbn. auto.
Defined.

(** ** Bodies without detail mode *)

Lemma rows_plain (rs1 rs2 : list CheckResult) :
  map reason rs1 = map reason rs2 ->
  map (html_row false) (filter has_reason rs1)
  = map (html_row false) (filter has_reason rs2).
Proof.
  revert rs2. induction rs1 as [|r1 rs1 IH]; intros [|r2 rs2] H;
    try discriminate H; [reflexivity|].
  cbn [map] in H. injection H as Hr Hrs. cbn [filter].
  assert (Hh : has_reason r1 = has_reason r2)
    by (unfold has_reason; rewrite Hr; reflexivity).
  rewrite Hh. destruct (has_reason r2); [|now apply IH].
  cbn [map]. rewrite (IH _ Hrs). unfold html_row. rewrite Hr. reflexivity.
Qed.

Lemma html_document_plain (h1 h2 : option string) (rs1 rs2 : list CheckResult) :
  map reason rs1 = map reason rs2 ->
  html_document false h1 rs1 = html_document false h2 rs2.
Proof.
  intros H. unfold html_document. rewrite (rows_plain _ _ H).
  assert (L : List.length rs1 = List.length rs2)
    by (rewrite <- (length_map reason rs1), H; apply length_map).
  rewrite L. destruct h1, h2; reflexivity.
Qed.

Lemma make_html_response_ok (self : Healthcheck) (results : list CheckResult)
  (healthy : bool) (w : World) :
  hostname_ok w ->
  _make_html_response self results healthy w =
  (Returned (html_document (_show_details self)
               match gethostname_outcome w with
               | Returned h => Some h
               | Raised _ => None
               end results, "text/html"), w).
Proof.
  intros H. rewrite make_html_response_eq.
  destruct (gethostname_outcome w) as [h|e] eqn:E; [reflexivity|].
  unfold hostname_ok in H. rewrite (H e E). reflexivity.
Qed.

(** X7: without detail mode the three renderers show nothing but the
    reasons: result lists with the same reasons give the same text, HTML
    and JSON bodies, whatever the types of the results, their availability,
    the verdict passed in and the host name. *)
Theorem plain_bodies_depend_on_reasons_only (self : Healthcheck)
  (rs1 rs2 : list CheckResult) (healthy1 healthy2 : bool) (w1 w2 : World) :
  _show_details self = false ->
  map reason rs1 = map reason rs2 ->
  hostname_ok w1 ->
  hostname_ok w2 ->
  fst (_make_text_response self rs1 healthy1 w1)
  = fst (_make_text_response self rs2 healthy2 w2)
  /\ fst (_make_html_response self rs1 healthy1 w1)
     = fst (_make_html_response self rs2 healthy2 w2)
  /\ fst (_make_json_response self rs1 healthy1 w1)
     = fst (_make_json_response self rs2 healthy2 w2).
Proof.
  intros Hd Hr H1 H2. split; [|split].
  - rewrite !make_text_response_eq, Hr. reflexivity.
  - rewrite !make_html_response_ok by assumption. rewrite Hd. cbn [fst].
    rewrite (html_document_plain _ match gethostname_outcome w2 with
                                   | Returned h => Some h
                                   | Raised _ => None
                                   end _ _ Hr).
    reflexivity.
  - rewrite !make_json_response_eq, Hd. cbn [fst].
    replace (map (json_item false) rs1) with (map VStr (map reason rs1))
      by (rewrite map_map; reflexivity).
    replace (map (json_item false) rs2) with (map VStr (map reason rs2))
      by (rewrite map_map; reflexivity).
    rewrite Hr. reflexivity.
Qed.

(** ** The JSON text *)

(** X8: the text of the JSON body.  The keys come out sorted, detailed
    before reasons and class before reason, though the code builds the dict
    in another order without detail mode; the reasons are one item per
    result, in order, and an empty list is written as a pair of brackets. *)
Theorem json_text_layout (self : Healthcheck) (results : list CheckResult)
  (healthy : bool) (w : World) :
  _make_json_response self results healthy w =
  (Returned (json_text (_show_details self) results, "application/json"), w).
Proof. apply make_json_response_text. Qed.

Lemma printable_app (a b : string) : printable (a ++ b) = printable a && printable b.
Proof.
  induction a as [|c a IH]; [reflexivity|].
  cbn [append printable]. rewrite IH. now rewrite andb_assoc.
Qed.

Lemma printable_escape (s : string) : printable (Json.escape s) = true.
Proof.
  induction s as [|c s IH]; [reflexivity|].
  cbn [Json.escape]. rewrite printable_app, IH, andb_true_r.
  destruct c as [[] [] [] [] [] [] [] []]; vm_compute; reflexivity.
Qed.

Lemma printable_quote (s : string) : printable (Json.quote s) = true.
Proof.
  unfold Json.quote. rewrite !printable_app, printable_escape. reflexivity.
Qed.

Lemma printable_newline_indent (n : nat) : printable (Json.newline_indent n) = true.
Proof.
  unfold Json.newline_indent. rewrite printable_app. cbn [LF printable andb].
  change (printable LF) with true. cbn [andb].
  induction (4 * n) as [|k IH]; [reflexivity|]. cbn. exact IH.
Qed.

Lemma printable_cat (l : list string) :
  forallb printable l = true -> printable (cat l) = true.
Proof.
  induction l as [|x l IH]; [reflexivity|].
  cbn [forallb cat]. intros H. apply andb_true_iff in H. destruct H as [Hx Hl].
  rewrite printable_app, Hx, (IH Hl). reflexivity.
Qed.

Lemma printable_join (sep : string) (l : list string) :
  printable sep = true -> forallb printable l = true -> printable (join sep l) = true.
Proof.
  intros Hs Hl. destruct l as [|x l]; [reflexivity|].
  cbn [forallb] in Hl. apply andb_true_iff in Hl. destruct Hl as [Hx Hl].
  rewrite join_cons, printable_app, Hx. cbn [andb]. apply printable_cat.
  clear Hx. induction l as [|y l IH]; [reflexivity|].
  cbn [forallb] in Hl. apply andb_true_iff in Hl. destruct Hl as [Hy Hl].
  cbn [map forallb]. rewrite printable_app, Hs, Hy, (IH Hl). reflexivity.
Qed.

Lemma printable_bracket (open close : string) (level : nat) (items : list string) :
  printable open = true -> printable close = true ->
  forallb printable items = true ->
  printable (Json.bracket open close level items) = true.
Proof.
  intros Ho Hc Hi. unfold Json.bracket. destruct items as [|x l].
  - rewrite printable_app, Ho, Hc. reflexivity.
  - rewrite !printable_app, Ho, Hc, !printable_newline_indent.
    rewrite printable_join; [reflexivity| |exact Hi].
    rewrite printable_app, printable_newline_indent. reflexivity.
Qed.

Lemma printable_item (d : bool) (r : CheckResult) :
  printable (json_item_text d r) = true.
Proof.
  unfold json_item_text. destruct d; [|apply printable_quote].
  rewrite !printable_app, !printable_quote, !printable_newline_indent. reflexivity.
Qed.

(** X9: the JSON body consists of printable ASCII characters and
    newlines only, whatever characters the reasons and class names hold. *)
Theorem json_body_is_ascii (self : Healthcheck) (results : list CheckResult)
  (healthy : bool) (w : World) :
  exists body,
    _make_json_response self results healthy w
    = (Returned (body, "application/json"), w)
    /\ printable body = true.
Proof.
  eexists. split; [apply make_json_response_text|].
  unfold json_text.
  rewrite !printable_app, !printable_quote, !printable_newline_indent.
  rewrite printable_bracket; try reflexivity.
  - destruct (_show_details self); reflexivity.
  - rewrite forallb_forall. intros x Hx. apply in_map_iff in Hx.
    destruct Hx as (r & <- & _). apply printable_item.
Qed.

Lemma collect_results_reached (backends : list Extension) (w : World) :
  snd (collect_results backends w)
  = mkWorld (gethostname_outcome w) (invoked w ++ map name (reached backends))%list
  /\ (forall results, fst (collect_results backends w) = Returned results ->
      reached backends = backends).
Proof.
  revert w. induction backends as [|ext exts IH]; intros w.
  - cbn. rewrite app_nil_r. destruct w; split; reflexivity.
  - cbn [collect_results reached]. unfold bind at 1 3. unfold healthcheck at 1 2.
    destruct (healthcheck_outcome (obj ext)) as [r|e].
    + unfold bind at 1 2.
      destruct (IH (mkWorld (gethostname_outcome w) (invoked w ++ [name ext])%list))
        as [Hw Hall].
      destruct (collect_results exts
                  (mkWorld (gethostname_outcome w) (invoked w ++ [name ext])%list))
        as [[rs|e] w1]; cbn [fst snd] in *; subst w1;
        cbn [map gethostname_outcome invoked]; rewrite <- app_assoc;
        (split; [reflexivity|]).
      * intros rs' _. f_equal. exact (Hall rs eq_refl).
      * intros rs' H. discriminate H.
    + cbn. split; [reflexivity|]. intros rs' H. discriminate H.
Qed.

(** X1: a request to the configured path invokes the backends in their
    configured order, each once, up to and including the first one that
    raises and none after it: the log grows by exactly the names of those
    backends, which are all of them whenever the handler returns. *)
Theorem backends_invoked_in_order (self : Healthcheck) (req : Request) (w : World) :
  path req = _path self ->
  invoked (snd (process_request self req w))
  = (invoked w ++ map name (reached (_backends self)))%list
  /\ (forall r, fst (process_request self req w) = Returned r ->
      reached (_backends self) = _backends self).
Proof.
  intros Hp. pose proof (process_request_cases self req w Hp) as C.
  destruct (collect_results_reached (_backends self) w) as [Hw Hall].
  destruct (collect_results (_backends self) w) as [[results|e] w1];
    cbn [fst snd] in Hw, Hall.
  2:{ rewrite C, Hw. cbn. split; [reflexivity|]. intros r H; discriminate H. }
  assert (Hfull := Hall _ eq_refl).
  assert (Hs : snd (process_request self req w) = w1).
  { cbv zeta in C. destruct (String.eqb (method req) "HEAD"); [now rewrite C|].
    destruct C as [[_ C]|[[_ C]|[[_ C]|(_ & _ & _ & C)]]]; rewrite C; try reflexivity.
    destruct (gethostname_outcome w1) as [h|e]; [reflexivity|].
    destruct (is_socket_error e); reflexivity. }
  rewrite Hs, Hw. cbn. auto.
Qed.

(** ** Markup of the HTML document *)

Lemma count_rows_lt (d : bool) (rs : list CheckResult) (rest : string) :
  count_sub "<" (cat (map (html_row d) rs) ++ rest)
  = (if d then 6 else 4) * List.length rs + count_sub "<" rest.
Proof.
  induction rs as [|r rs IH]; [destruct d; reflexivity|].
  cbn [map cat List.length]. rewrite append_assoc. unfold html_row at 1.
  destruct d; norm_str; count_steps; rewrite IH; lia.
Qed.

Lemma count_document_lt (d : bool) (host : option string) (results : list CheckResult) :
  count_sub "<" (html_document d host results)
  = 14 + (if heading_shown d host then 2 else 0)
    + (if d then 6 else 4) * List.length (filter has_reason results).
Proof.
  unfold html_document, html_heading, heading_shown, DQ.
  let q := eval vm_compute in (ascii_of_nat 34) in change (ascii_of_nat 34) with q.
  destruct host as [h|]; [destruct (d && negb (String.eqb h ""))|];
    norm_str; count_steps; rewrite count_rows_lt; count_steps; lia.
Qed.

(** X11: reasons, class names and the host name cannot add markup to the
    HTML body: the number of less-than signs in it is 14 for the frame, 2
    for the host name heading when shown, and 4 per row, or 6 in detail
    mode. *)
Theorem html_markup_is_fixed (self : Healthcheck) (results : list CheckResult)
  (healthy : bool) (w : World) :
  hostname_ok w ->
  exists body,
    _make_html_response self results healthy w = (Returned (body, "text/html"), w)
    /\ count_sub "<" body
       = 14
         + (if heading_shown (_show_details self)
                 match gethostname_outcome w with
                 | Returned h => Some h
                 | Raised _ => None
                 end
            then 2 else 0)
         + (if _show_details self then 6 else 4)
           * List.length (filter has_reason results).
Proof.
  intros H. eexists. split; [apply (make_html_response_ok _ _ _ _ H)|].
  apply count_document_lt.
Qed.

(** ** Templates and missing variables *)

(** X12: templates are expanded with StrictUndefined: when the params
    lack reasons, expanding the plain template raises UndefinedError, and
    when they lack detailed, expanding the HTML template raises
    UndefinedError, instead of rendering the variable as empty. *)
Theorem expand_template_needs_its_variables (params : Dict) :
  (dict_get params "reasons" = None ->
   _expand_template PLAIN_RESPONSE_TEMPLATE params
   = Raised (mkExn "jinja2.exceptions.UndefinedError" "'reasons' is undefined"))
  /\ (dict_get params "detailed" = None ->
      _expand_template HTML_RESPONSE_TEMPLATE params
      = Raised (mkExn "jinja2.exceptions.UndefinedError" "'detailed' is undefined")).
Proof.
  unfold _expand_template, Jinja2.Template_render. split.
  - intros Hr. rewrite parse_plain. cbn [Jinja2.render_nodes]. rewrite render_node_for.
    cbn [Jinja2.eval]. rewrite Hr. reflexivity.
  - intros Hd. rewrite parse_html. cbn [Jinja2.render_nodes]. rewrite render_node_if.
    cbn [Jinja2.eval]. rewrite Hd. reflexivity.
Qed.

(** ** Construction *)

Lemma string_of_list_ascii_app (l : list ascii) (c : ascii) :
  string_of_list_ascii (l ++ [c]) = string_of_list_ascii l ++ String c "".
Proof. induction l as [|a l IH]; cbn; [reflexivity|]. now rewrite IH. Qed.

Lemma flush_cons (c : ascii) (acc : list ascii) :
  Jinja2.flush (c :: acc) = Jinja2.flush acc ++ String c "".
Proof. unfold Jinja2.flush. cbn [rev]. apply string_of_list_ascii_app. Qed.

Lemma split_on_nonempty (d : ascii) (acc : list ascii) (s : string) :
  Jinja2.split_on d acc s <> [].
Proof.
  revert acc. induction s as [|c s IH]; intros acc; cbn [Jinja2.split_on].
  - discriminate.
  - destruct (Ascii.eqb c d); [discriminate|apply IH].
Qed.

(** Joining the pieces of a split with the delimiter gives the string back. *)
Lemma join_split_on (d : ascii) (acc : list ascii) (s : string) :
  join (String d "") (Jinja2.split_on d acc s) = Jinja2.flush acc ++ s.
Proof.
  revert acc. induction s as [|c s IH]; intros acc; cbn [Jinja2.split_on].
  - cbn. now rewrite append_nil_r.
  - destruct (Ascii.eqb c d) eqn:E.
    + apply Ascii.eqb_eq in E. subst c.
      specialize (IH []). pose proof (split_on_nonempty d [] s) as Hne.
      destruct (Jinja2.split_on d [] s) as [|y l]; [contradiction|].
      change (join (String d "") (Jinja2.flush acc :: y :: l))
        with (Jinja2.flush acc ++ String d "" ++ join (String d "") (y :: l)).
      rewrite IH. reflexivity.
    + rewrite IH, flush_cons, append_assoc. reflexivity.
Qed.

Lemma comma_free_app (a b : string) : comma_free (a ++ b) = comma_free a && comma_free b.
Proof.
  induction a as [|c a IH]; [reflexivity|].
  cbn [append comma_free]. rewrite IH. now rewrite andb_assoc.
Qed.

Lemma split_on_comma_free (acc : list ascii) (s : string) :
  comma_free (Jinja2.flush acc) = true ->
  forallb comma_free (Jinja2.split_on "," acc s) = true.
Proof.
  revert acc. induction s as [|c s IH]; intros acc H; cbn [Jinja2.split_on].
  - cbn. now rewrite H.
  - destruct (Ascii.eqb c ",") eqn:E.
    + cbn [forallb]. rewrite H. apply IH. reflexivity.
    + apply IH. rewrite flush_cons, comma_free_app, H. cbn. now rewrite E.
Qed.

(** X13: the backend names are the pieces of the backends setting between
    its commas, unchanged: joined by commas they give the setting back,
    none holds a comma, and there is no name exactly when the setting is
    missing or empty. *)
Theorem backend_names_are_the_comma_separated_pieces (conf : Conf) :
  match conf_get conf "backends" with
  | Some backends =>
      join "," (_backend_names conf) = backends
      /\ (_backend_names conf = [] <-> backends = "")
  | None => _backend_names conf = []
  end
  /\ forallb comma_free (_backend_names conf) = true.
Proof.
  unfold _backend_names. destruct (conf_get conf "backends") as [b|]; [|auto].
  destruct (String.eqb b "") eqn:E; cbn [negb].
  - apply String.eqb_eq in E. subst b. repeat split; reflexivity.
  - apply String.eqb_neq in E. split; [split|].
    + apply (join_split_on "," [] b).
    + split; [intros H; now apply split_on_nonempty in H|intros H; contradiction].
    + apply split_on_comma_free. reflexivity.
Qed.

(** X14: a middleware built from a configuration with neither a path nor
    backends answers at /healthcheck, healthy: 204 with an empty body for
    HEAD, 200 with an empty text/plain body otherwise. *)
Theorem default_configuration_answers_healthy
  (manager : list string -> list Extension) (conf : Conf) (req : Request) (w : World) :
  conf_get conf "path" = None ->
  conf_get conf "backends" = None ->
  manager [] = [] ->
  path req = "/healthcheck" ->
  (method req = "HEAD" ->
   process_request (__init__ manager conf) req w
   = (Returned (Some (mkResponse 204 "" "text/plain")), w))
  /\ (method req <> "HEAD" ->
      negotiated req = Some "text/plain" ->
      process_request (__init__ manager conf) req w
      = (Returned (Some (mkResponse 200 "" "text/plain")), w)).
Proof.
  intros Hpath Hback Hm Hp.
  assert (Hself : __init__ manager conf
                  = mkHealthcheck "/healthcheck"
                                  (bool_from_string (conf_get conf "detailed")) []).
  { unfold __init__, _backend_names. rewrite Hpath, Hback, Hm. reflexivity. }
  rewrite Hself. clear Hself.
  set (self := mkHealthcheck "/healthcheck"
                             (bool_from_string (conf_get conf "detailed")) []).
  assert (Hw : after_checks self w = w).
  { unfold after_checks. cbn. rewrite app_nil_r. destruct w; reflexivity. }
  assert (Hb : backends_return self []) by constructor.
  split.
  - intros Hh. rewrite (process_request_head self req w [] Hp Hh Hb), Hw. reflexivity.
  - intros Hh Hn. rewrite (process_request_text self req w [] Hp Hh Hn Hb), Hw.
    reflexivity.
Qed.

(** ** The further properties at sample inputs *)

Lemma backends_invoked_in_order_witness :
  invoked (snd (process_request
                  (mkHealthcheck "/healthcheck" false
                     [ returning "first" true "OK";
                       raising "second" (mkExn "IOError" "disk unreadable");
                       returning "third" false "DISABLED BY FILE" ])
                  (sample_request "GET" None) sample_world))
  = ["first"; "second"]
  /\ (forall r,
        fst (process_request
               (mkHealthcheck "/healthcheck" false
                  [ returning "first" true "OK";
                    raising "second" (mkExn "IOError" "disk unreadable");
                    returning "third" false "DISABLED BY FILE" ])
               (sample_request "GET" None) sample_world) = Returned r ->
        [ returning "first" true "OK";
          raising "second" (mkExn "IOError" "disk unreadable") ]
        = [ returning "first" true "OK";
            raising "second" (mkExn "IOError" "disk unreadable");
            returning "third" false "DISABLED BY FILE" ]).
Proof.
  apply (backends_invoked_in_order
           (mkHealthcheck "/healthcheck" false
              [ returning "first" true "OK";
                raising "second" (mkExn "IOError" "disk unreadable");
                returning "third" false "DISABLED BY FILE" ])
           (sample_request "GET" None) sample_world).
  reflexivity.
Defined.

Lemma response_content_type_witness :
  negotiated (sample_request "GET" (Some "application/json")) = Some "application/json"
  /\ In "application/json" ["text/plain"; "text/html"; "application/json"].
Proof.
  apply (response_content_type (sample_self true)
           (sample_request "GET" (Some "application/json")) sample_world
           (mkWorld (Returned "node-1") ["disable_by_file"])
           (mkResponse 503
              (json_text true [mkResult HealthcheckResult false "DISABLED BY FILE"])
              "application/json")).
  vm_compute. reflexivity.
Defined.

Lemma same_negotiation_same_outcome_witness :
  process_request (sample_self true) (sample_request "GET" None) sample_world
  = process_request (sample_self true)
                    (mkRequest "/healthcheck" "POST" (accepting (Some "text/plain")))
                    sample_world.
Proof.
  apply (same_negotiation_same_outcome (sample_self true)
           (sample_request "GET" None)
           (mkRequest "/healthcheck" "POST" (accepting (Some "text/plain")))
           sample_world).
  - reflexivity.
  - reflexivity.
  - intros _. reflexivity.
Defined.

Lemma detail_mode_irrelevant_for_head_and_text_witness :
  process_request
    (mkHealthcheck "/healthcheck" true [returning "disable_by_file" false "DISABLED BY FILE"])
    (sample_request "GET" (Some "text/plain")) sample_world
  = process_request
      (mkHealthcheck "/healthcheck" false [returning "disable_by_file" false "DISABLED BY FILE"])
      (sample_request "GET" (Some "text/plain")) sample_world.
Proof.
  apply (detail_mode_irrelevant_for_head_and_text "/healthcheck" true false
           [returning "disable_by_file" false "DISABLED BY FILE"]
           (sample_request "GET" (Some "text/plain")) sample_world).
  right. reflexivity.
Defined.

Lemma hostname_matters_to_html_only_witness :
  fst (process_request (sample_self true)
         (sample_request "GET" (Some "application/json"))
         (mkWorld (Returned "node-1") []))
  = fst (process_request (sample_self true)
           (sample_request "GET" (Some "application/json"))
           (mkWorld (Raised (mkExn "MemoryError" "")) [])).
Proof.
  apply (hostname_matters_to_html_only (sample_self true)
           (sample_request "GET" (Some "application/json"))
           (Returned "node-1") (Raised (mkExn "MemoryError" "")) []).
  right. cbn. discriminate.
Defined.

Lemma plain_bodies_depend_on_reasons_only_witness :
  fst (_make_text_response (sample_self false)
         [mkResult HealthcheckResult true "x"] true sample_world)
  = fst (_make_text_response (sample_self false)
           [mkResult DisableByFileHealthcheck false "x"] false socket_failure_world)
  /\ fst (_make_html_response (sample_self false)
            [mkResult HealthcheckResult true "x"] true sample_world)
     = fst (_make_html_response (sample_self false)
              [mkResult DisableByFileHealthcheck false "x"] false socket_failure_world)
  /\ fst (_make_json_response (sample_self false)
            [mkResult HealthcheckResult true "x"] true sample_world)
     = fst (_make_json_response (sample_self false)
              [mkResult DisableByFileHealthcheck false "x"] false socket_failure_world).
Proof.
  apply (plain_bodies_depend_on_reasons_only (sample_self false)
           [mkResult HealthcheckResult true "x"]
           [mkResult DisableByFileHealthcheck false "x"]
           true false sample_world socket_failure_world).
  - reflexivity.
  - reflexivity.
  - intros e H. discriminate H.
  - intros e H. injection H as <-. reflexivity.
Defined.

Lemma text_and_html_bodies_are_trimmed_witness :
  strip "disk full" = "disk full".
Proof.
  apply (text_and_html_bodies_are_trimmed
           (mkHealthcheck "/healthcheck" false
                          [returning "first" true ""; returning "second" false " disk full "])
           (sample_request "GET" None) sample_world
           (mkWorld (Returned "node-1") ["first"; "second"])
           (mkResponse 503 "disk full" "text/plain")).
  - vm_compute. reflexivity.
  - cbn. discriminate.
Defined.

Lemma html_markup_is_fixed_witness :
  exists body,
    _make_html_response (sample_self true)
      [mkResult HealthcheckResult false "<b>down</b>"] false sample_world
    = (Returned (body, "text/html"), sample_world)
    /\ count_sub "<" body = 14 + 2 + 6 * 1.
Proof.
  apply (html_markup_is_fixed (sample_self true)
           [mkResult HealthcheckResult false "<b>down</b>"] false sample_world).
  intros e H. discriminate H.
Defined.

Lemma expand_template_needs_its_variables_witness :
  _expand_template PLAIN_RESPONSE_TEMPLATE [("detailed", VBool true)]
  = Raised (mkExn "jinja2.exceptions.UndefinedError" "'reasons' is undefined")
  /\ _expand_template HTML_RESPONSE_TEMPLATE [("reasons", VList [VStr "down"])]
     = Raised (mkExn "jinja2.exceptions.UndefinedError" "'detailed' is undefined").
Proof.
  split.
  - apply (proj1 (expand_template_needs_its_variables [("detailed", VBool true)])).
    reflexivity.
  - apply (proj2 (expand_template_needs_its_variables [("reasons", VList [VStr "down"])])).
    reflexivity.
Defined.

Lemma default_configuration_answers_healthy_witness :
  (method (sample_request "HEAD" None) = "HEAD" ->
   process_request (__init__ (fun _ => []) [("detailed", "true")])
                   (sample_request "HEAD" None) sample_world
   = (Returned (Some (mkResponse 204 "" "text/plain")), sample_world))
  /\ (method (sample_request "HEAD" None) <> "HEAD" ->
      negotiated (sample_request "HEAD" None) = Some "text/plain" ->
      process_request (__init__ (fun _ => []) [("detailed", "true")])
                      (sample_request "HEAD" None) sample_world
      = (Returned (Some (mkResponse 200 "" "text/plain")), sample_world)).
Proof.
  apply (default_configuration_answers_healthy (fun _ => []) [("detailed", "true")]
           (sample_request "HEAD" None) sample_world).
  - reflexivity.
  - reflexivity.
  - reflexivity.
  - reflexivity.
Defined.

Lemma process_request_responds_witness :
  exists resp,
    process_request (sample_self true) (sample_request "GET" (Some "text/html"))
                    socket_failure_world
    = (Returned (Some resp), after_checks (sample_self true) socket_failure_world).
Proof.
  apply (process_request_responds (sample_self true)
           (sample_request "GET" (Some "text/html")) socket_failure_world
           [mkResult HealthcheckResult false "DISABLED BY FILE"]).
  - reflexivity.
  - repeat constructor.
  - intros t H. injection H as <-. cbn. auto.
  - intros e H. injection H as <-. reflexivity.
Defined.
